(** * Price List Management Service: the in-memory price and promotion store

    A shallow embedding of [PriceListManagementService/app/main.py] and the
    properties its specification states about it.

    - Python's [float] is IEEE 754 binary64, modelled by Rocq's primitive
      floats, whose operations are the same binary64 operations.
    - The two module-level dictionaries [PRICES] and [PROMOTIONS] are finite
      maps keyed by the product id.
    - A handler is a computation that reads and writes the two dictionaries
      and either returns a response or raises; handlers are written in a small
      state-and-exception monad.  The handlers are [async] functions that
      never [await], so each one runs to completion on the event loop before
      the next starts: a request is one step on the store. *)

From Stdlib Require Import ZArith NArith Bool List Ascii String.
From Stdlib Require Import QArith Qabs.
From Stdlib Require Import Floats.
From stdpp Require Import gmap strings.

Local Open Scope Z_scope.

(* Decimal literals such as 78.4 denote the nearest binary64 value. *)
#[local] Set Warnings "-inexact-float".

(** ** Python numbers *)

Module PyFloat.

(** [bool(x)] for a float: [x != 0.0].  Both zeros are falsy, a NaN is
    truthy. *)
Definition bool_of_float (x : float) : bool := negb (x =? 0)%float.

(** The integer nearest to [a / b] for [0 < b], ties going to the even
    neighbour. *)
Definition round_half_even (a b : Z) : Z :=
  let q := a / b in
  match 2 * (a mod b) ?= b with
  | Lt => q
  | Gt => q + 1
  | Eq => if Z.even q then q else q + 1
  end.

(** Largest [ndigits] for which rounding can change a binary64 value. *)
Definition NDIGITS_MAX : Z := 323.

(** The builtin [round(x, ndigits)] on a float, for [0 <= ndigits].
    CPython rounds the exact value of [x] to [ndigits] decimal places, ties to
    even, and returns the binary64 nearest to that decimal.  Zeros, infinities
    and NaN are returned as they are.  A finite non-zero [x] is [m * 2^e]
    with [m] a positive integer: [n] below is the exact value scaled by
    [10^ndigits] and rounded to an integer, and the result is the correctly
    rounded quotient [n / 10^ndigits], with the sign of [x]. *)
Definition round (x : float) (ndigits : Z) : float :=
  match Prim2SF x with
  | S754_finite s m e =>
      if NDIGITS_MAX <? ndigits then x
      else
        let scale := 10 ^ ndigits in
        let n :=
          match e with
          | Zneg k => round_half_even (Zpos m * scale) (2 ^ Zpos k)
          | _ => Zpos m * scale * 2 ^ e
          end in
        match n with
        | Zpos n' =>
            SF2Prim (SFdiv prec emax (S754_finite s n' 0)
                                     (S754_finite false (Z.to_pos scale) 0))
        | _ => SF2Prim (S754_zero s)
        end
  | _ => x
  end.

End PyFloat.

(** ** Data model *)

(** The value stored under a product id in [PRICES]:
    [{"currency": ..., "base_price": ...}]. *)
Record PriceRecord : Type := mkPriceRecord {
  rec_currency : string;
  rec_base_price : float
}.

(** The process state: the two module-level dictionaries. *)
Record Store : Type := mkStore {
  PRICES : gmap string PriceRecord;
  PROMOTIONS : gmap string float
}.

Definition empty_store : Store :=
  {| PRICES := ∅; PROMOTIONS := ∅ |}.

(** The subset of [get_settings()] that a handler reads. *)
Record Settings : Type := mkSettings {
  SERVICE_NAME : string;
  ENV : string
}.

(** Request and response models. *)
Record PriceCreate : Type := mkPriceCreate {
  pc_product_id : string;
  pc_currency : string;
  pc_base_price : float
}.

Record PriceResponse : Type := mkPriceResponse {
  product_id : string;
  currency : string;
  final_price : float;
  base_price : float;
  promotion_applied : option float
}.

Record PromotionUpsert : Type := mkPromotionUpsert {
  pu_product_id : string;
  pu_percent_off : float
}.

Record PriceQuery : Type := mkPriceQuery {
  pq_product_id : string;
  pq_currency : string;
  pq_include_promotions : bool
}.

Record HealthResponse : Type := mkHealthResponse {
  h_status : string;
  h_service : string;
  h_env : string
}.

(** [{"status": "ok", "promotion": {"product_id": ..., "percent_off": ...}}] *)
Record PromotionAck : Type := mkPromotionAck {
  ack_status : string;
  ack_product_id : string;
  ack_percent_off : float
}.

(** The constraints [ge=0, le=100] of [PromotionUpsert.percent_off]: the value
    must be greater than or equal to 0 and less than or equal to 100.  Both
    comparisons are false on a NaN, which is therefore refused. *)
Definition percent_in_range (p : float) : bool :=
  ((0 <=? p) && (p <=? 100))%float.

(** ** Failures *)

(** A handler raises [HTTPException]; a body refused by its model raises
    [RequestValidationError], whose error list carries the refused input. *)
Inductive Failure : Type :=
| HTTPException (status : Z) (detail : string)
| RequestValidationError (input : float).

(** The status the client receives.  An [HTTPException] is answered with its
    own status.  A [RequestValidationError] is answered by the framework's
    default handler: status 422 and a JSON body that lists the errors with
    the refused input.  That body is encoded with [allow_nan=False], so when
    the input is an infinity or a NaN the encoding fails and the client
    receives status 500 instead. *)
Definition status_code (f : Failure) : Z :=
  match f with
  | HTTPException status _ => status
  | RequestValidationError input => if is_finite input then 422 else 500
  end.

Inductive Outcome (A : Type) : Type :=
| Ok (a : A)
| Raise (f : Failure).

Arguments Ok {A} a.
Arguments Raise {A} f.

(** ** Handlers as computations over the store *)

Definition M (A : Type) : Type := Store -> Outcome A * Store.

Definition ret {A} (a : A) : M A := fun st => (Ok a, st).

Definition bind {A B} (c : M A) (k : A -> M B) : M B :=
  fun st =>
    match c st with
    | (Ok a, st') => k a st'
    | (Raise f, st') => (Raise f, st')
    end.

Definition raise {A} (f : Failure) : M A := fun st => (Raise f, st).

Notation "'let*' x ':=' c 'in' k" := (bind c (fun x => k))
  (at level 10, x name, c at level 100, k at level 200).

(** [PRICES[k] = v] *)
Definition PRICES_set (k : string) (v : PriceRecord) : M unit :=
  fun st => (Ok tt, {| PRICES := <[k := v]> (PRICES st);
                       PROMOTIONS := PROMOTIONS st |}).

(** [PRICES.get(k)]; [k not in PRICES] is the [None] case. *)
Definition PRICES_get (k : string) : M (option PriceRecord) :=
  fun st => (Ok (PRICES st !! k), st).

(** [PROMOTIONS[k] = v] *)
Definition PROMOTIONS_set (k : string) (v : float) : M unit :=
  fun st => (Ok tt, {| PRICES := PRICES st;
                       PROMOTIONS := <[k := v]> (PROMOTIONS st) |}).

(** [PROMOTIONS.get(k)] *)
Definition PROMOTIONS_get (k : string) : M (option float) :=
  fun st => (Ok (PROMOTIONS st !! k), st).

(** [round(base * (1 - percent / 100), 2)], the expression the three price
    handlers share. *)
Definition discounted (base percent : float) : float :=
  PyFloat.round (base * (1 - percent / 100))%float 2.

(** ** Rounding to two decimal places, as a specification

    What "rounded to 2 decimal places" means for a binary64 value, stated on
    exact rationals and independently of [PyFloat.round]. *)

(** [n] is the integer nearest to [q], a tie going to the even integer. *)
Definition nearest_even (q : Q) (n : Z) : Prop :=
  (Qabs (q - inject_Z n) <= 1 # 2)%Q /\
  ((Qabs (q - inject_Z n) == 1 # 2)%Q -> Z.even n = true).

(** [n] is the integer nearest to [q], a tie going to the greater integer. *)
Definition nearest_half_up (q : Q) (n : Z) : Prop :=
  (Qabs (q - inject_Z n) <= 1 # 2)%Q /\
  ((Qabs (q - inject_Z n) == 1 # 2)%Q -> (q <= inject_Z n)%Q).

(** The exact magnitude [m * 2^e] of a finite non-zero binary64 with
    mantissa [m] and exponent [e]. *)
Definition magnitude (m : positive) (e : Z) : Q :=
  match e with
  | Zneg k => Zpos m # (2 ^ k)%positive
  | _ => inject_Z (Zpos m * 2 ^ e)
  end.

(** The exact value of a finite binary64. *)
Definition value (x : float) : option Q :=
  match Prim2SF x with
  | S754_zero _ => Some 0%Q
  | S754_finite s m e =>
      Some (if s : bool then (- magnitude m e)%Q else magnitude m e)
  | _ => None
  end.

(** The binary64 nearest to [n / 100], for [0 <= n], with sign [s]: the
    IEEE 754 quotient of the integers [n] and 100. *)
Definition cents_to_float (s : bool) (n : Z) : float :=
  match n with
  | Zpos n' =>
      SF2Prim (SFdiv prec emax (S754_finite s n' 0) (S754_finite false 100 0))
  | _ => SF2Prim (S754_zero s)
  end.

(** [r] is [x] rounded to two decimal places: for a finite non-zero [x], the
    binary64 nearest to [n / 100] where [n] is the integer nearest to 100
    times the magnitude of [x], ties to even, with the sign of [x]; a zero,
    an infinity and a NaN round to themselves. *)
Definition rounded_to_cents (x r : float) : Prop :=
  match Prim2SF x with
  | S754_finite s m e =>
      exists n : Z,
        0 <= n /\ nearest_even (100 * magnitude m e) n /\
        r = cents_to_float s n
  | _ => r = x
  end.

(** The pricing rule read in exact arithmetic: [final] is the binary64
    equal to the nearest one to [n / 100], where [n] is the integer nearest
    to 100 times the exact [base * (1 - percent / 100)], a tie going to the
    even or to the greater integer. *)
Definition exactly_discounted (base percent final : float) : Prop :=
  exists (b p : Q) (n : Z),
    value base = Some b /\ value percent = Some p /\
    (nearest_even (100 * (b * (1 - p / 100))) n \/
     nearest_half_up (100 * (b * (1 - p / 100))) n) /\
    PrimFloat.eqb final (cents_to_float (n <? 0)%Z (Z.abs n)) = true.

Definition health (settings : Settings) : M HealthResponse :=
  ret {| h_status := "ok";
         h_service := SERVICE_NAME settings;
         h_env := ENV settings |}.

Definition upsert_price (payload : PriceCreate) : M PriceResponse :=
  let* _ := PRICES_set (pc_product_id payload)
              {| rec_currency := pc_currency payload;
                 rec_base_price := pc_base_price payload |} in
  let* percent := PROMOTIONS_get (pc_product_id payload) in
  let final_price :=
    match percent with
    | Some p =>
        if PyFloat.bool_of_float p then discounted (pc_base_price payload) p
        else pc_base_price payload
    | None => pc_base_price payload
    end in
  ret {| product_id := pc_product_id payload;
         currency := pc_currency payload;
         base_price := pc_base_price payload;
         final_price := final_price;
         promotion_applied := percent |}.

Definition get_price (product_id : string) (apply_promotions : bool)
  : M PriceResponse :=
  let* found := PRICES_get product_id in
  match found with
  | None => raise (HTTPException 404 "Price not found")
  | Some p =>
      let base := rec_base_price p in
      let* percent := (if apply_promotions then PROMOTIONS_get product_id
                       else ret None) in
      let final_price :=
        match percent with
        | Some pc => if negb (PyFloat.bool_of_float pc) then base
                     else discounted base pc
        | None => base
        end in
      ret {| product_id := product_id;
             currency := rec_currency p;
             base_price := base;
             final_price := final_price;
             promotion_applied := percent |}
  end.

Definition query_price (payload : PriceQuery) : M PriceResponse :=
  let* found := PRICES_get (pq_product_id payload) in
  match found with
  | None => raise (HTTPException 404 "Price not found")
  | Some p =>
      let* _ := (if negb (String.eqb (rec_currency p) (pq_currency payload))
                 then ret tt   (* currency mismatch: [pass] *)
                 else ret tt) in
      let base := rec_base_price p in
      let* percent := (if pq_include_promotions payload
                       then PROMOTIONS_get (pq_product_id payload)
                       else ret None) in
      let final_price :=
        match percent with
        | Some pc => if negb (PyFloat.bool_of_float pc) then base
                     else discounted base pc
        | None => base
        end in
      ret {| product_id := pq_product_id payload;
             currency := rec_currency p;
             base_price := base;
             final_price := final_price;
             promotion_applied := percent |}
  end.

Definition upsert_promotion (payload : PromotionUpsert) : M PromotionAck :=
  let* _ := PROMOTIONS_set (pu_product_id payload) (pu_percent_off payload) in
  ret {| ack_status := "ok";
         ack_product_id := pu_product_id payload;
         ack_percent_off := pu_percent_off payload |}.


(** ** The routes

    FastAPI validates a request body against the route's model before the
    handler runs.  The bodies of the price routes are taken as already typed;
    for [POST /api/v1/promotions] the range constraint of [PromotionUpsert] is
    checked here, and a body that fails it is answered with a validation
    error without calling [upsert_promotion]. *)

Definition PromotionUpsert_validate (product_id : string) (percent_off : float)
  : option PromotionUpsert :=
  if percent_in_range percent_off
  then Some {| pu_product_id := product_id; pu_percent_off := percent_off |}
  else None.

(** [POST /api/v1/promotions], the specification's [set_promotion]. *)
Definition set_promotion (product_id : string) (percent_off : float)
  : M PromotionAck :=
  match PromotionUpsert_validate product_id percent_off with
  | Some payload => upsert_promotion payload
  | None => raise (RequestValidationError percent_off)
  end.

(** [POST /api/v1/prices], the specification's [set_price]. *)
Definition set_price (product_id currency : string) (base_price : float)
  : M PriceResponse :=
  upsert_price {| pc_product_id := product_id;
                  pc_currency := currency;
                  pc_base_price := base_price |}.

Inductive Request : Type :=
| GET_health
| POST_prices (body : PriceCreate)
| GET_prices (product_id : string) (apply_promotions : bool)
| POST_prices_query (body : PriceQuery)
| POST_promotions (product_id : string) (percent_off : float).

Inductive Response : Type :=
| HealthBody (r : HealthResponse)
| PriceBody (r : PriceResponse)
| PromotionBody (r : PromotionAck).

Definition route (settings : Settings) (req : Request) : M Response :=
  match req with
  | GET_health =>
      let* r := health settings in ret (HealthBody r)
  | POST_prices body =>
      let* r := upsert_price body in ret (PriceBody r)
  | GET_prices product_id apply_promotions =>
      let* r := get_price product_id apply_promotions in ret (PriceBody r)
  | POST_prices_query body =>
      let* r := query_price body in ret (PriceBody r)
  | POST_promotions product_id percent_off =>
      let* r := set_promotion product_id percent_off in ret (PromotionBody r)
  end.

(** The store after a computation, and its outcome. *)
Definition exec {A} (c : M A) (st : Store) : Store := snd (c st).
Definition eval {A} (c : M A) (st : Store) : Outcome A := fst (c st).

Section Reachability.

Variable settings : Settings.

(** The states the service can be in: the empty store at start-up, and the
    store left by any request served in such a state. *)
Inductive reachable : Store -> Prop :=
| reachable_empty : reachable empty_store
| reachable_step st req :
    reachable st -> reachable (exec (route settings req) st).

End Reachability.

(** Every stored percentage satisfies the declared range. *)
Definition promotions_in_range (st : Store) : Prop :=
  forall P p, PROMOTIONS st !! P = Some p ->
    (0 <=? p)%float = true /\ (p <=? 100)%float = true.

(** No key of [st] is missing from [st']. *)
Definition keeps_entries (st st' : Store) : Prop :=
  (forall P, is_Some (PRICES st !! P) -> is_Some (PRICES st' !! P)) /\
  (forall P, is_Some (PROMOTIONS st !! P) -> is_Some (PROMOTIONS st' !! P)).

(** The percentage a read handler holds after its lookup:
    [PROMOTIONS.get(product_id) if apply_promotions else None]. *)
Definition looked_up (st : Store) (P : string) (with_promotions : bool)
  : option float :=
  if with_promotions then PROMOTIONS st !! P else None.

(** Stores used to run the handlers on concrete requests. *)
Definition till (base percent : float) : Store :=
  {| PRICES := {[ "sku-1" := {| rec_currency := "USD";
                                rec_base_price := base |} ]};
     PROMOTIONS := {[ "sku-1" := percent ]} |}.

Definition shop (promotions : gmap string float) : Store :=
  {| PRICES := {[ "sku-1" := {| rec_currency := "USD";
                                rec_base_price := 10 |} ]};
     PROMOTIONS := promotions |}.

(** ** Histories of requests *)

(** The store after serving the requests of a list, first to last. *)
Definition run (settings : Settings) (reqs : list Request) (st : Store)
  : Store :=
  fold_left (fun st req => exec (route settings req) st) reqs st.

(** The price record a request writes under product id [P], if any. *)
Definition price_written (P : string) (req : Request) : option PriceRecord :=
  match req with
  | POST_prices body =>
      if String.eqb (pc_product_id body) P
      then Some {| rec_currency := pc_currency body;
                   rec_base_price := pc_base_price body |}
      else None
  | _ => None
  end.

(** The percentage a request writes under product id [P], if any: only a
    promotion that passes validation is written. *)
Definition promotion_written (P : string) (req : Request) : option float :=
  match req with
  | POST_promotions product_id percent_off =>
      if String.eqb product_id P && percent_in_range percent_off
      then Some percent_off
      else None
  | _ => None
  end.

(** The last value written along a history, starting from [init]. *)
Definition last_written {A} (written : Request -> option A)
    (reqs : list Request) (init : option A) : option A :=
  fold_left (fun acc req => match written req with
                            | Some a => Some a
                            | None => acc
                            end) reqs init.

(** ** Start-up configuration

    A [str] is held as the bytes of its UTF-8 encoding.  Equality and
    splitting at a comma are the same on the encoding as on the characters;
    [str.strip()] removes the characters [str.isspace()] accepts, which are
    recognised below by their encodings of one, two or three bytes. *)

Module PyStr.

Local Open Scope N_scope.

(** One-byte whitespace: U+0009..U+000D, U+001C..U+0020. *)
Definition space1 (a : ascii) : bool :=
  let n := N_of_ascii a in
  ((9 <=? n) && (n <=? 13)) || ((28 <=? n) && (n <=? 32)).

(** Two-byte whitespace: U+0085 (C2 85) and U+00A0 (C2 A0). *)
Definition space2 (a b : ascii) : bool :=
  (N_of_ascii a =? 0xC2) &&
  ((N_of_ascii b =? 0x85) || (N_of_ascii b =? 0xA0)).

(** Three-byte whitespace: U+1680 (E1 9A 80), U+2000..U+200A (E2 80 80..8A),
    U+2028 and U+2029 (E2 80 A8, E2 80 A9), U+202F (E2 80 AF),
    U+205F (E2 81 9F) and U+3000 (E3 80 80). *)
Definition space3 (a b c : ascii) : bool :=
  let x := N_of_ascii a in
  let y := N_of_ascii b in
  let z := N_of_ascii c in
  ((x =? 0xE1) && (y =? 0x9A) && (z =? 0x80)) ||
  ((x =? 0xE2) && (y =? 0x80) &&
   (((0x80 <=? z) && (z <=? 0x8A)) || (z =? 0xA8) || (z =? 0xA9) || (z =? 0xAF))) ||
  ((x =? 0xE2) && (y =? 0x81) && (z =? 0x9F)) ||
  ((x =? 0xE3) && (y =? 0x80) && (z =? 0x80)).

(** The rest of [s] after its leading whitespace characters; [t1], [t2] and
    [t3] recognise a whitespace character of one, two and three bytes. *)
Fixpoint drop_spaces (t1 : ascii -> bool) (t2 : ascii -> ascii -> bool)
    (t3 : ascii -> ascii -> ascii -> bool) (s : list ascii) : list ascii :=
  match s with
  | [] => []
  | a :: s1 =>
      if t1 a then drop_spaces t1 t2 t3 s1
      else
        match s1 with
        | [] => s
        | b :: s2 =>
            if t2 a b then drop_spaces t1 t2 t3 s2
            else
              match s2 with
              | [] => s
              | c :: s3 =>
                  if t3 a b c then drop_spaces t1 t2 t3 s3 else s
              end
        end
  end.

(** [s] begins with a whitespace character. *)
Definition head_space (t1 : ascii -> bool) (t2 : ascii -> ascii -> bool)
    (t3 : ascii -> ascii -> ascii -> bool) (s : list ascii) : bool :=
  match s with
  | [] => false
  | a :: s1 =>
      t1 a ||
      match s1 with
      | [] => false
      | b :: s2 =>
          t2 a b ||
          match s2 with
          | [] => false
          | c :: _ => t3 a b c
          end
      end
  end.

Definition lstrip_chars (s : list ascii) : list ascii :=
  drop_spaces space1 space2 space3 s.

(** Trailing whitespace is leading whitespace of the reversed bytes, each
    character's bytes being met last byte first. *)
Definition rstrip_chars (s : list ascii) : list ascii :=
  rev (drop_spaces space1 (fun b a => space2 a b)
                   (fun c b a => space3 a b c) (rev s)).

(** [s.strip()] *)
Definition strip_chars (s : list ascii) : list ascii :=
  rstrip_chars (lstrip_chars s).

(** [s.split(sep)] for a one-character separator: the pieces between the
    separators, empty pieces included; the empty string gives one empty
    piece. *)
Fixpoint split_chars (sep : ascii) (s : list ascii) : list (list ascii) :=
  match s with
  | [] => [[]]
  | c :: s' =>
      if Ascii.eqb c sep then [] :: split_chars sep s'
      else match split_chars sep s' with
           | piece :: rest => (c :: piece) :: rest
           | [] => [[c]]
           end
  end.

Definition strip (s : string) : string :=
  string_of_list_ascii (strip_chars (list_ascii_of_string s)).

Definition split (sep : ascii) (s : string) : list string :=
  map string_of_list_ascii (split_chars sep (list_ascii_of_string s)).

(** [sep.join(pieces)] *)
Fixpoint join_chars (sep : ascii) (pieces : list (list ascii)) : list ascii :=
  match pieces with
  | [] => []
  | [piece] => piece
  | piece :: rest => piece ++ sep :: join_chars sep rest
  end.

Definition join (sep : ascii) (pieces : list string) : string :=
  string_of_list_ascii (join_chars sep (map list_ascii_of_string pieces)).

(** [" " * n + s + " " * m] *)
Definition padded (n m : nat) (s : string) : string :=
  string_of_list_ascii
    (repeat " "%char n ++ list_ascii_of_string s ++ repeat " "%char m).

(** The number of occurrences of [c] in [s]: [s.count(c)]. *)
Definition count (c : ascii) (s : string) : nat :=
  length (filter (Ascii.eqb c) (list_ascii_of_string s)).

(** [bool(s)]: the empty string is falsy. *)
Definition bool_of_str (s : string) : bool :=
  match s with EmptyString => false | _ => true end.

End PyStr.

(** [os.getenv] on an environment that maps the names of the variables that
    are set to their values. *)
Module Config.

Record settings_dict : Type := mk_settings_dict {
  SERVICE_NAME : string;
  ENV : string;
  ALLOWED_ORIGINS : string;
  POSTGRES_URL : option string;
  POSTGRES_USER : option string;
  POSTGRES_PASSWORD : option string;
  POSTGRES_DB : option string
}.

(** [os.getenv(key)] *)
Definition getenv (environ : gmap string string) (key : string)
  : option string :=
  environ !! key.

(** [os.getenv(key, default)] *)
Definition getenv_or (environ : gmap string string) (key default : string)
  : string :=
  match environ !! key with
  | Some v => v
  | None => default
  end.

Definition get_settings (environ : gmap string string) : settings_dict :=
  {| SERVICE_NAME :=
       getenv_or environ "PRICE_SERVICE_NAME" "Price List Management Service";
     ENV := getenv_or environ "ENV" "development";
     ALLOWED_ORIGINS := getenv_or environ "ALLOWED_ORIGINS" "*";
     POSTGRES_URL := getenv environ "PRICE_DB_URL";
     POSTGRES_USER := getenv environ "PRICE_DB_USER";
     POSTGRES_PASSWORD := getenv environ "PRICE_DB_PASSWORD";
     POSTGRES_DB := getenv environ "PRICE_DB_NAME" |}.

End Config.

(** The module-level [allow_origins], from [settings["ALLOWED_ORIGINS"]]. *)
Definition allow_origins (ALLOWED_ORIGINS : string) : list string :=
  if PyStr.bool_of_str ALLOWED_ORIGINS
  then map PyStr.strip (PyStr.split "," ALLOWED_ORIGINS)
  else ["*"%string].


(** * Properties *)

(** ** What each handler computes *)

Lemma upsert_price_run (payload : PriceCreate) (st : Store) :
  upsert_price payload st =
    (Ok {| product_id := pc_product_id payload;
           currency := pc_currency payload;
           final_price :=
             match PROMOTIONS st !! pc_product_id payload with
             | Some p => if PyFloat.bool_of_float p
                         then discounted (pc_base_price payload) p
                         else pc_base_price payload
             | None => pc_base_price payload
             end;
           base_price := pc_base_price payload;
           promotion_applied := PROMOTIONS st !! pc_product_id payload |},
     {| PRICES := <[pc_product_id payload :=
                      {| rec_currency := pc_currency payload;
                         rec_base_price := pc_base_price payload |}]>
                    (PRICES st);
        PROMOTIONS := PROMOTIONS st |}).
Proof. reflexivity. Qed.

Lemma get_price_found (P : string) (flag : bool) (st : Store) (r : PriceRecord) :
  PRICES st !! P = Some r ->
  get_price P flag st =
    (Ok {| product_id := P;
           currency := rec_currency r;
           final_price :=
             match looked_up st P flag with
             | Some pc => if negb (PyFloat.bool_of_float pc)
                          then rec_base_price r
                          else discounted (rec_base_price r) pc
             | None => rec_base_price r
             end;
           base_price := rec_base_price r;
           promotion_applied := looked_up st P flag |},
     st).
Proof.
  intros Hr. unfold get_price, bind, PRICES_get, looked_up.
  rewrite Hr. destruct flag; reflexivity.
Qed.

Lemma get_price_missing (P : string) (flag : bool) (st : Store) :
  PRICES st !! P = None ->
  get_price P flag st = (Raise (HTTPException 404 "Price not found"), st).
Proof.
  intros Hr. unfold get_price, bind, PRICES_get. rewrite Hr. reflexivity.
Qed.

Lemma query_price_found (q : PriceQuery) (st : Store) (r : PriceRecord) :
  PRICES st !! pq_product_id q = Some r ->
  query_price q st =
    (Ok {| product_id := pq_product_id q;
           currency := rec_currency r;
           final_price :=
             match looked_up st (pq_product_id q) (pq_include_promotions q) with
             | Some pc => if negb (PyFloat.bool_of_float pc)
                          then rec_base_price r
                          else discounted (rec_base_price r) pc
             | None => rec_base_price r
             end;
           base_price := rec_base_price r;
           promotion_applied :=
             looked_up st (pq_product_id q) (pq_include_promotions q) |},
     st).
Proof.
  intros Hr. unfold query_price, bind, PRICES_get, looked_up.
  rewrite Hr.
  destruct (negb (String.eqb (rec_currency r) (pq_currency q)));
    destruct (pq_include_promotions q); reflexivity.
Qed.

Lemma query_price_missing (q : PriceQuery) (st : Store) :
  PRICES st !! pq_product_id q = None ->
  query_price q st = (Raise (HTTPException 404 "Price not found"), st).
Proof.
  intros Hr. unfold query_price, bind, PRICES_get. rewrite Hr. reflexivity.
Qed.

Lemma bool_of_float_nonzero (p : float) :
  (p =? 0)%float = false -> PyFloat.bool_of_float p = true.
Proof. unfold PyFloat.bool_of_float. intros ->. reflexivity. Qed.

Lemma bool_of_float_zero (p : float) :
  (p =? 0)%float = true -> PyFloat.bool_of_float p = false.
Proof. unfold PyFloat.bool_of_float. intros ->. reflexivity. Qed.

(** ** The pricing rule *)

(** The arithmetic is binary64 throughout, as in the handlers: 0.5% off 1.0
    is computed as 0.99499999999999999556, which rounds to 0.99. *)
Example discounted_one_half_percent : discounted 1 0.5 = 0.99%float.
Proof. vm_compute. reflexivity. Qed.

Example discounted_quarter_off_ten : discounted 10 25 = 7.5%float.
Proof. vm_compute. reflexivity. Qed.

Example round_ties_to_even : PyFloat.round 0.125 2 = 0.12%float.
Proof. vm_compute. reflexivity. Qed.

Example round_keeps_sign_of_zero : PyFloat.round (-0.001) 2 = (-0)%float.
Proof. vm_compute. reflexivity. Qed.

(** *** [PyFloat.round] rounds to two decimal places *)

Lemma Qabs_diff_le (a : Z) (b : positive) (n : Z) :
  (Qabs ((a # b) - inject_Z n) <= 1 # 2)%Q <->
  2 * Z.abs (a - n * Zpos b) <= Zpos b.
Proof.
  unfold Qle, Qabs, Qminus, Qplus, Qopp, inject_Z. cbn [Qnum Qden].
  rewrite Pos.mul_1_r. lia.
Qed.

Lemma Qabs_diff_eq (a : Z) (b : positive) (n : Z) :
  (Qabs ((a # b) - inject_Z n) == 1 # 2)%Q <->
  2 * Z.abs (a - n * Zpos b) = Zpos b.
Proof.
  unfold Qeq, Qabs, Qminus, Qplus, Qopp, inject_Z. cbn [Qnum Qden].
  rewrite Pos.mul_1_r. lia.
Qed.

Lemma Qle_inject (a : Z) (b : positive) (n : Z) :
  ((a # b) <= inject_Z n)%Q <-> a <= n * Zpos b.
Proof. unfold Qle, inject_Z. cbn [Qnum Qden]. lia. Qed.

(** [PyFloat.round_half_even a b] is the integer nearest to [a / b], ties to
    even. *)
Lemma round_half_even_nearest (a b : Z) :
  0 < b ->
  2 * Z.abs (a - PyFloat.round_half_even a b * b) <= b /\
  (2 * Z.abs (a - PyFloat.round_half_even a b * b) = b ->
   Z.even (PyFloat.round_half_even a b) = true) /\
  (0 <= a -> 0 <= PyFloat.round_half_even a b).
Proof.
  intros Hb. unfold PyFloat.round_half_even.
  pose proof (Z.div_mod a b ltac:(lia)) as Hdm.
  pose proof (Z.mod_pos_bound a b Hb) as Hr.
  assert (Hq : 0 <= a -> 0 <= a / b) by (intros; apply Z.div_pos; lia).
  destruct (2 * (a mod b) ?= b) eqn:Hc.
  - apply Z.compare_eq in Hc.
    destruct (Z.even (a / b)) eqn:He.
    + repeat split; try lia. intros _. exact He.
    + repeat split; try lia.
      intros _. replace (a / b + 1) with (Z.succ (a / b)) by lia.
      rewrite Z.even_succ, <- Z.negb_even, He. reflexivity.
  - rewrite Z.compare_lt_iff in Hc. repeat split; lia.
  - rewrite Z.compare_gt_iff in Hc. repeat split; lia.
Qed.


Lemma hundred_times (a : Z) (b : positive) :
  (100 * (a # b))%Q = ((100 * a) # b).
Proof. reflexivity. Qed.

Lemma nearest_even_fraction (a : Z) (b : positive) (n : Z) :
  nearest_even (a # b) n <->
  2 * Z.abs (a - n * Zpos b) <= Zpos b /\
  (2 * Z.abs (a - n * Zpos b) = Zpos b -> Z.even n = true).
Proof. unfold nearest_even. rewrite Qabs_diff_le, Qabs_diff_eq. reflexivity. Qed.

(** [round(x, 2)] is [x] rounded to two decimal places. *)
Lemma round_rounded (x : float) : rounded_to_cents x (PyFloat.round x 2).
Proof.
  unfold rounded_to_cents, PyFloat.round.
  destruct (Prim2SF x) as [s|s| |s m e]; try reflexivity.
  change (PyFloat.NDIGITS_MAX <? 2) with false. cbv iota.
  change (10 ^ 2) with 100. change (Z.to_pos 100) with 100%positive.
  assert (Hexact : forall e0, 0 <= e0 ->
            nearest_even (100 * inject_Z (Z.pos m * 2 ^ e0))
                         (Z.pos m * 100 * 2 ^ e0)).
  { intros e0 He. unfold inject_Z. rewrite hundred_times.
    apply nearest_even_fraction. split; [lia|]. lia. }
  destruct e as [|e|k].
  - exists (Z.pos m * 100 * 2 ^ 0). split; [lia|]. split.
    + apply (Hexact 0). lia.
    + reflexivity.
  - exists (Z.pos m * 100 * 2 ^ Z.pos e).
    split; [pose proof (Z.pow_pos_nonneg 2 (Z.pos e)); lia|]. split.
    + apply (Hexact (Z.pos e)). lia.
    + reflexivity.
  - exists (PyFloat.round_half_even (Z.pos m * 100) (2 ^ Z.pos k)).
    assert (Hb : 0 < 2 ^ Z.pos k) by (apply Z.pow_pos_nonneg; lia).
    destruct (round_half_even_nearest (Z.pos m * 100) (2 ^ Z.pos k) Hb)
      as (Hle & Htie & Hpos).
    split; [apply Hpos; lia|]. split.
    + unfold magnitude. rewrite hundred_times.
      apply nearest_even_fraction.
      rewrite Pos2Z.inj_pow. replace (100 * Z.pos m) with (Z.pos m * 100) by lia.
      split; assumption.
    + reflexivity.
Qed.

(** C1, as the code behaves.  The final price in the response of
    [upsert_price], [get_price] and [query_price] is the binary64 product
    [base_price * (1 - percent_off / 100)] rounded to two decimal places when
    the handler holds a non-zero percentage in [0,100], and is the base price
    itself when it holds none.  The percentage a read handler holds is the
    stored one when promotions are requested. *)
Theorem final_price_is_rounded_product :
  (forall (st : Store) (payload : PriceCreate),
      exists v, eval (upsert_price payload) st = Ok v /\
        (forall p, PROMOTIONS st !! pc_product_id payload = Some p ->
           percent_in_range p = true -> (p =? 0)%float = false ->
           rounded_to_cents (pc_base_price payload * (1 - p / 100))%float
                            (final_price v)) /\
        (PROMOTIONS st !! pc_product_id payload = None ->
           final_price v = pc_base_price payload)) /\
  (forall (st : Store) (P : string) (r : PriceRecord) (flag : bool),
      PRICES st !! P = Some r ->
      exists v, eval (get_price P flag) st = Ok v /\
        (forall p, (if flag then PROMOTIONS st !! P else None) = Some p ->
           percent_in_range p = true -> (p =? 0)%float = false ->
           rounded_to_cents (rec_base_price r * (1 - p / 100))%float
                            (final_price v)) /\
        ((if flag then PROMOTIONS st !! P else None) = None ->
           final_price v = rec_base_price r)) /\
  (forall (st : Store) (q : PriceQuery) (r : PriceRecord),
      PRICES st !! pq_product_id q = Some r ->
      exists v, eval (query_price q) st = Ok v /\
        (forall p,
           (if pq_include_promotions q
            then PROMOTIONS st !! pq_product_id q else None) = Some p ->
           percent_in_range p = true -> (p =? 0)%float = false ->
           rounded_to_cents (rec_base_price r * (1 - p / 100))%float
                            (final_price v)) /\
        ((if pq_include_promotions q
          then PROMOTIONS st !! pq_product_id q else None) = None ->
           final_price v = rec_base_price r)).
Proof.
  repeat split.
  - intros st payload. unfold eval. rewrite upsert_price_run.
    eexists; split; [reflexivity|]. cbn [final_price fst].
    split.
    + intros p -> _ Hnz. rewrite (bool_of_float_nonzero _ Hnz).
      apply round_rounded.
    + intros ->. reflexivity.
  - intros st P r flag Hr. unfold eval. rewrite (get_price_found _ _ _ _ Hr).
    eexists; split; [reflexivity|]. cbn [final_price fst]. unfold looked_up.
    split.
    + intros p -> _ Hnz. rewrite (bool_of_float_nonzero _ Hnz).
      apply round_rounded.
    + intros ->. reflexivity.
  - intros st q r Hr. unfold eval. rewrite (query_price_found _ _ _ Hr).
    eexists; split; [reflexivity|]. cbn [final_price fst]. unfold looked_up.
    split.
    + intros p -> _ Hnz. rewrite (bool_of_float_nonzero _ Hnz).
      apply round_rounded.
    + intros ->. reflexivity.
Qed.

(** 9.99 at 50%: the binary64 product lies just above 4.995 and is rounded
    to 5.0. *)
Lemma final_price_is_rounded_product_witness :
  exists v, eval (get_price "sku-1" true) (till 9.99 50) = Ok v /\
            final_price v = 5%float.
Proof.
  destruct (proj1 (proj2 final_price_is_rounded_product)
              (till 9.99 50) "sku-1"
              {| rec_currency := "USD"; rec_base_price := 9.99 |} true)
    as (v & Hv & Hp & _).
  - vm_compute. reflexivity.
  - exists v. split; [exact Hv|].
    specialize (Hp 50%float).
    cbn [rec_base_price] in Hp. unfold rounded_to_cents in Hp.
    set (sf := Prim2SF _) in Hp. vm_compute in sf. subst sf. cbv iota beta in Hp.
    destruct Hp as (n & Hn0 & Hn & ->);
      [vm_compute; reflexivity | vm_compute; reflexivity | vm_compute; reflexivity |].
    unfold magnitude in Hn. rewrite hundred_times in Hn.
    apply nearest_even_fraction in Hn. destruct Hn as [Hle _].
    set (b := Z.pos (2 ^ _)) in Hle. vm_compute in b. subst b.
    assert (Hn : n = 500) by lia. subst n. vm_compute. reflexivity.
Defined.

(** C1, as stated, fails.  1.0 at 0.5% is exactly 0.995, which rounds to 1.00
    with ties to even and with ties upwards; the handler returns 0.99,
    because the binary64 product lies just below 0.995. *)
Lemma half_percent_off_one_is_not_exact :
  ~ exists v,
      eval (get_price "sku-1" true) (till 1 0.5) = Ok v /\
      exactly_discounted 1 0.5 (final_price v).
Proof.
  intros (v & Hv & b & p & n & Hb & Hp & Hn & Heq).
  vm_compute in Hv. injection Hv as <-. cbn [final_price] in Heq.
  vm_compute in Hb. injection Hb as <-.
  vm_compute in Hp. injection Hp as <-.
  set (q := (100 * _)%Q) in Hn.
  assert (Hq : q = Qmake (Qnum q) (Qden q)) by (destruct q; reflexivity).
  rewrite Hq in Hn. clear Hq.
  set (a := Qnum q) in Hn. set (d := Qden q) in Hn.
  vm_compute in a. vm_compute in d. subst a d. clear q.
  assert (Hcents : n = 100).
  { destruct Hn as [[Hle Htie]|[Hle Htie]].
    - apply Qabs_diff_le in Hle. rewrite Qabs_diff_eq in Htie.
      assert (Hc : n = 99 \/ n = 100) by lia.
      destruct Hc as [-> | ->]; [|reflexivity].
      assert (He : Z.even 99 = true) by (apply Htie; lia). discriminate He.
    - apply Qabs_diff_le in Hle. rewrite Qabs_diff_eq, Qle_inject in Htie.
      lia. }
  subst n. vm_compute in Heq. discriminate Heq.
Qed.

(** ** Reading prices *)

(** C4.  After [set_price(P, C, B)] in a state with no promotion for [P],
    [get_price(P)] succeeds and returns base price [B], final price [B] and no
    promotion, whatever the value of [apply_promotions]. *)
Theorem set_price_then_get_price
    (st : Store) (P C : string) (B : float) (flag : bool) :
  PROMOTIONS st !! P = None ->
  eval (get_price P flag) (exec (set_price P C B) st) =
    Ok {| product_id := P;
          currency := C;
          final_price := B;
          base_price := B;
          promotion_applied := None |}.
Proof.
  intros Hnone. unfold eval, exec, set_price.
  rewrite upsert_price_run. cbn [snd pc_product_id pc_currency pc_base_price].
  erewrite get_price_found by (cbn [PRICES]; apply lookup_insert_eq).
  unfold looked_up. cbn [PROMOTIONS fst rec_currency rec_base_price].
  rewrite Hnone. destruct flag; reflexivity.
Qed.

Lemma set_price_then_get_price_witness :
  eval (get_price "sku-9" true) (exec (set_price "sku-9" "EUR" 12.5) empty_store) =
    Ok {| product_id := "sku-9";
          currency := "EUR";
          final_price := 12.5;
          base_price := 12.5;
          promotion_applied := None |}.
Proof.
  apply (set_price_then_get_price empty_store "sku-9" "EUR" 12.5 true).
  vm_compute. reflexivity.
Defined.

(** C6.  For a product id with no price record, [get_price] and [query_price]
    raise the 404 "Price not found" and return no price view, whether or not
    a promotion is stored for it; the store is left as it was. *)
Theorem read_unknown_product_not_found
    (st : Store) (P C : string) (flag : bool) :
  PRICES st !! P = None ->
  get_price P flag st = (Raise (HTTPException 404 "Price not found"), st) /\
  query_price {| pq_product_id := P;
                 pq_currency := C;
                 pq_include_promotions := flag |} st =
    (Raise (HTTPException 404 "Price not found"), st) /\
  status_code (HTTPException 404 "Price not found") = 404.
Proof.
  intros Hnone. split; [|split].
  - apply get_price_missing, Hnone.
  - apply query_price_missing, Hnone.
  - reflexivity.
Qed.

Lemma read_unknown_product_not_found_witness :
  let st := {| PRICES := ∅; PROMOTIONS := {[ "ghost" := 30%float ]} |} in
  get_price "ghost" true st = (Raise (HTTPException 404 "Price not found"), st) /\
  query_price {| pq_product_id := "ghost";
                 pq_currency := "USD";
                 pq_include_promotions := true |} st =
    (Raise (HTTPException 404 "Price not found"), st) /\
  status_code (HTTPException 404 "Price not found") = 404.
Proof.
  intros st. apply (read_unknown_product_not_found st "ghost" "USD" true).
  vm_compute. reflexivity.
Defined.

(** C7.  A query whose currency differs from the stored one succeeds and
    answers with the stored currency and base price; its result is the result
    of the same query made with the stored currency. *)
Theorem query_price_ignores_currency
    (st : Store) (P C : string) (flag : bool) (r : PriceRecord) :
  PRICES st !! P = Some r ->
  C <> rec_currency r ->
  let asked := {| pq_product_id := P;
                  pq_currency := C;
                  pq_include_promotions := flag |} in
  let matching := {| pq_product_id := P;
                     pq_currency := rec_currency r;
                     pq_include_promotions := flag |} in
  (exists v, eval (query_price asked) st = Ok v /\
             currency v = rec_currency r /\
             base_price v = rec_base_price r) /\
  query_price asked st = query_price matching st.
Proof.
  intros Hr _ asked matching. split.
  - unfold eval. rewrite (query_price_found asked st r Hr).
    eexists; split; [reflexivity|]. split; reflexivity.
  - rewrite (query_price_found asked st r Hr).
    rewrite (query_price_found matching st r Hr). reflexivity.
Qed.

Lemma query_price_ignores_currency_witness :
  let asked := {| pq_product_id := "sku-1";
                  pq_currency := "EUR";
                  pq_include_promotions := true |} in
  let matching := {| pq_product_id := "sku-1";
                     pq_currency := "USD";
                     pq_include_promotions := true |} in
  (exists v, eval (query_price asked) (shop ∅) = Ok v /\
             currency v = "USD" /\
             base_price v = 10%float) /\
  query_price asked (shop ∅) = query_price matching (shop ∅).
Proof.
  apply (query_price_ignores_currency (shop ∅) "sku-1" "EUR" true
           {| rec_currency := "USD"; rec_base_price := 10 |}).
  - vm_compute. reflexivity.
  - discriminate.
Defined.

(** C8.  With [apply_promotions = false], [get_price] returns the stored base
    price as final price and no promotion, and the promotions dictionary is
    not consulted: any other promotions dictionary gives the same answer. *)
Theorem get_price_without_promotions
    (st : Store) (P : string) (r : PriceRecord) :
  PRICES st !! P = Some r ->
  eval (get_price P false) st =
    Ok {| product_id := P;
          currency := rec_currency r;
          final_price := rec_base_price r;
          base_price := rec_base_price r;
          promotion_applied := None |} /\
  forall promotions : gmap string float,
    eval (get_price P false) {| PRICES := PRICES st; PROMOTIONS := promotions |} =
    eval (get_price P false) st.
Proof.
  intros Hr. split.
  - unfold eval. rewrite (get_price_found P false st r Hr). reflexivity.
  - intros promotions. unfold eval.
    rewrite (get_price_found P false st r Hr).
    rewrite (get_price_found P false _ r) by exact Hr.
    reflexivity.
Qed.

Lemma get_price_without_promotions_witness :
  eval (get_price "sku-1" false) (shop {[ "sku-1" := 25%float ]}) =
    Ok {| product_id := "sku-1";
          currency := "USD";
          final_price := 10;
          base_price := 10;
          promotion_applied := None |} /\
  forall promotions : gmap string float,
    eval (get_price "sku-1" false) (shop promotions) =
    eval (get_price "sku-1" false) (shop {[ "sku-1" := 25%float ]}).
Proof.
  apply (get_price_without_promotions (shop {[ "sku-1" := 25%float ]}) "sku-1"
           {| rec_currency := "USD"; rec_base_price := 10 |}).
  vm_compute. reflexivity.
Defined.

(** ** The 20% scenario *)

Lemma twenty_percent_run (st : Store) (P : string) :
  eval (get_price P true)
       (exec (set_promotion P 20) (exec (set_price P "USD" 100) st)) =
    Ok {| product_id := P;
          currency := "USD";
          final_price := 80;
          base_price := 100;
          promotion_applied := Some 20%float |}.
Proof.
  unfold eval, exec, set_price. rewrite upsert_price_run.
  cbn [snd pc_product_id pc_currency pc_base_price].
  unfold set_promotion, PromotionUpsert_validate.
  replace (percent_in_range 20) with true by (vm_compute; reflexivity).
  unfold upsert_promotion, bind, PROMOTIONS_set, ret.
  cbn [snd pu_product_id pu_percent_off PRICES PROMOTIONS].
  erewrite get_price_found by (cbn [PRICES]; apply lookup_insert_eq).
  unfold looked_up. cbn [PROMOTIONS fst rec_currency rec_base_price].
  rewrite lookup_insert_eq.
  replace (PyFloat.bool_of_float 20) with true by (vm_compute; reflexivity).
  replace (discounted 100 20) with 80%float by (vm_compute; reflexivity).
  reflexivity.
Qed.

(** C2, as the code behaves.  After [set_price(P, "USD", 100)] and
    [set_promotion(P, 20)], [get_price(P)] with promotions applied returns
    final price 80.0 (100 * 0.8, rounded to two places) and reports the
    promotion 20. *)
Theorem twenty_percent_off_hundred (st : Store) (P : string) :
  exists v,
    eval (get_price P true)
         (exec (set_promotion P 20) (exec (set_price P "USD" 100) st)) = Ok v /\
    final_price v = 80%float /\
    base_price v = 100%float /\
    promotion_applied v = Some 20%float.
Proof.
  rewrite twenty_percent_run. eexists; split; [reflexivity|].
  repeat split.
Qed.

(** C2, as stated, fails: the final price of the scenario is not 78.4. *)
Lemma twenty_percent_is_not_78_4 :
  ~ exists v,
      eval (get_price "P" true)
           (exec (set_promotion "P" 20)
                 (exec (set_price "P" "USD" 100) empty_store)) = Ok v /\
      final_price v = 78.4%float /\
      promotion_applied v = Some 20%float.
Proof.
  intros (v & Hv & Hf & _).
  vm_compute in Hv. injection Hv as <-. cbn [final_price] in Hf.
  apply (f_equal (fun x => (x =? 80)%float)) in Hf.
  vm_compute in Hf. discriminate Hf.
Qed.

(** ** A stored 0% promotion *)

(** C3, as the code behaves.  With promotions applied, the view for a product
    with a stored 0% promotion and the view for the same product with no
    stored promotion agree on product id, currency, base price and final
    price (the base price), and differ on [promotion_applied]: the stored
    zero in the first, absent in the second.  With [apply_promotions = false]
    the two views are equal. *)
Theorem zero_promotion_view
    (prices : gmap string PriceRecord) (with_zero without : gmap string float)
    (P : string) (r : PriceRecord) (z : float) :
  prices !! P = Some r ->
  with_zero !! P = Some z ->
  (z =? 0)%float = true ->
  without !! P = None ->
  let st0 := {| PRICES := prices; PROMOTIONS := with_zero |} in
  let st1 := {| PRICES := prices; PROMOTIONS := without |} in
  (exists v0 v1,
      eval (get_price P true) st0 = Ok v0 /\
      eval (get_price P true) st1 = Ok v1 /\
      product_id v0 = product_id v1 /\
      currency v0 = currency v1 /\
      base_price v0 = base_price v1 /\
      final_price v0 = rec_base_price r /\
      final_price v1 = rec_base_price r /\
      promotion_applied v0 = Some z /\
      promotion_applied v1 = None) /\
  eval (get_price P false) st0 = eval (get_price P false) st1.
Proof.
  intros Hr Hz Hzero Hnone st0 st1. unfold eval. split.
  - rewrite (get_price_found P true st0 r Hr).
    rewrite (get_price_found P true st1 r Hr).
    do 2 eexists. split; [reflexivity|]. split; [reflexivity|].
    unfold looked_up. cbn [fst PROMOTIONS st0 st1 product_id currency base_price
                           final_price promotion_applied].
    rewrite Hz, Hnone, (bool_of_float_zero _ Hzero). cbn [negb].
    repeat split.
  - rewrite (get_price_found P false st0 r Hr).
    rewrite (get_price_found P false st1 r Hr).
    reflexivity.
Qed.

Lemma zero_promotion_view_witness :
  exists v0 v1,
    eval (get_price "sku-1" true) (shop {[ "sku-1" := 0%float ]}) = Ok v0 /\
    eval (get_price "sku-1" true) (shop ∅) = Ok v1 /\
    final_price v0 = final_price v1 /\
    promotion_applied v0 = Some 0%float /\
    promotion_applied v1 = None.
Proof.
  destruct (zero_promotion_view
              {[ "sku-1" := {| rec_currency := "USD"; rec_base_price := 10 |} ]}
              {[ "sku-1" := 0%float ]} ∅ "sku-1"
              {| rec_currency := "USD"; rec_base_price := 10 |} 0%float)
    as [(v0 & v1 & H0 & H1 & _ & _ & _ & Hf0 & Hf1 & Hp0 & Hp1) _].
  - vm_compute. reflexivity.
  - vm_compute. reflexivity.
  - vm_compute. reflexivity.
  - vm_compute. reflexivity.
  - exists v0, v1. split; [exact H0|]. split; [exact H1|].
    split; [congruence|]. split; [exact Hp0 | exact Hp1].
Defined.

(** C3, as stated, fails: the two views differ on [promotion_applied]. *)
Lemma zero_promotion_view_differs :
  PRICES (shop {[ "sku-1" := 0%float ]}) !! "sku-1"
    = Some {| rec_currency := "USD"; rec_base_price := 10 |} /\
  PROMOTIONS (shop {[ "sku-1" := 0%float ]}) !! "sku-1" = Some 0%float /\
  PROMOTIONS (shop ∅) !! "sku-1" = None /\
  eval (get_price "sku-1" true) (shop {[ "sku-1" := 0%float ]}) <>
  eval (get_price "sku-1" true) (shop ∅).
Proof.
  repeat split; try (vm_compute; reflexivity).
  vm_compute. intros H. discriminate H.
Qed.

(** ** Validation of promotions *)

(** Comparison of binary64 values is antisymmetric on strict order. *)
Lemma SFcompare_Lt_Gt (x y : spec_float) :
  SFcompare x y = Some Lt -> SFcompare y x = Some Gt.
Proof.
  destruct x as [sx|sx| |sx mx ex], y as [sy|sy| |sy my ey]; cbn;
    try discriminate; try (destruct sx; discriminate || reflexivity);
    try (destruct sy; discriminate || reflexivity);
    try (destruct sx, sy; discriminate || reflexivity).
  destruct sx, sy; try discriminate; try reflexivity;
    rewrite (Z.compare_antisym ex ey);
    destruct (ex ?= ey)%Z eqn:He; cbn; try discriminate; try reflexivity;
    change (Pos.compare_cont Eq my mx) with (Pos.compare my mx);
    change (Pos.compare_cont Eq mx my) with (Pos.compare mx my);
    rewrite (Pos.compare_antisym mx my);
    destruct (Pos.compare mx my); cbn; try discriminate; reflexivity.
Qed.

Lemma ltb_not_leb (x y : float) :
  (x <? y)%float = true -> (y <=? x)%float = false.
Proof.
  rewrite ltb_spec, leb_spec. unfold SFltb, SFleb.
  destruct (SFcompare (Prim2SF x) (Prim2SF y)) as [[]|] eqn:Hc;
    try discriminate.
  intros _. rewrite (SFcompare_Lt_Gt _ _ Hc). reflexivity.
Qed.

Lemma outside_not_in_range (p : float) :
  (p <? 0)%float = true \/ (100 <? p)%float = true ->
  percent_in_range p = false.
Proof.
  unfold percent_in_range. intros [H|H]; rewrite (ltb_not_leb _ _ H).
  - reflexivity.
  - apply andb_false_r.
Qed.

Lemma set_promotion_valid (P : string) (p : float) (st : Store) :
  percent_in_range p = true ->
  set_promotion P p st =
    (Ok {| ack_status := "ok"; ack_product_id := P; ack_percent_off := p |},
     {| PRICES := PRICES st; PROMOTIONS := <[P := p]> (PROMOTIONS st) |}).
Proof.
  intros Hp. unfold set_promotion, PromotionUpsert_validate.
  rewrite Hp. reflexivity.
Qed.

Lemma set_promotion_invalid (P : string) (p : float) (st : Store) :
  percent_in_range p = false ->
  set_promotion P p st = (Raise (RequestValidationError p), st).
Proof.
  intros Hp. unfold set_promotion, PromotionUpsert_validate.
  rewrite Hp. reflexivity.
Qed.





(** ** The store after each operation *)

Lemma exec_upsert_price (payload : PriceCreate) (st : Store) :
  exec (upsert_price payload) st =
    {| PRICES := <[pc_product_id payload :=
                     {| rec_currency := pc_currency payload;
                        rec_base_price := pc_base_price payload |}]>
                   (PRICES st);
       PROMOTIONS := PROMOTIONS st |}.
Proof. unfold exec. rewrite upsert_price_run. reflexivity. Qed.

Lemma exec_upsert_promotion (payload : PromotionUpsert) (st : Store) :
  exec (upsert_promotion payload) st =
    {| PRICES := PRICES st;
       PROMOTIONS := <[pu_product_id payload := pu_percent_off payload]>
                       (PROMOTIONS st) |}.
Proof. reflexivity. Qed.

Lemma exec_get_price (P : string) (flag : bool) (st : Store) :
  exec (get_price P flag) st = st.
Proof.
  unfold exec. destruct (PRICES st !! P) as [r|] eqn:Hr.
  - rewrite (get_price_found P flag st r Hr). reflexivity.
  - rewrite (get_price_missing P flag st Hr). reflexivity.
Qed.

Lemma exec_query_price (q : PriceQuery) (st : Store) :
  exec (query_price q) st = st.
Proof.
  unfold exec. destruct (PRICES st !! pq_product_id q) as [r|] eqn:Hr.
  - rewrite (query_price_found q st r Hr). reflexivity.
  - rewrite (query_price_missing q st Hr). reflexivity.
Qed.

Lemma exec_health (settings : Settings) (st : Store) :
  exec (health settings) st = st.
Proof. reflexivity. Qed.

Lemma exec_set_promotion (P : string) (p : float) (st : Store) :
  exec (set_promotion P p) st =
    if percent_in_range p
    then {| PRICES := PRICES st; PROMOTIONS := <[P := p]> (PROMOTIONS st) |}
    else st.
Proof.
  unfold exec. destruct (percent_in_range p) eqn:Hp.
  - rewrite (set_promotion_valid P p st Hp). reflexivity.
  - rewrite (set_promotion_invalid P p st Hp). reflexivity.
Qed.

Lemma exec_bind_ret {A B} (c : M A) (f : A -> B) (st : Store) :
  exec (let* r := c in ret (f r)) st = exec c st.
Proof. unfold exec, bind, ret. destruct (c st) as [[a|e] st']; reflexivity. Qed.

(** The store after serving a request. *)
Lemma exec_route (settings : Settings) (req : Request) (st : Store) :
  exec (route settings req) st =
    match req with
    | POST_prices body => exec (upsert_price body) st
    | POST_promotions P p => exec (set_promotion P p) st
    | _ => st
    end.
Proof.
  destruct req; cbn [route]; rewrite exec_bind_ret.
  - apply exec_health.
  - reflexivity.
  - apply exec_get_price.
  - apply exec_query_price.
  - reflexivity.
Qed.

Lemma route_keeps_entries (settings : Settings) (req : Request) (st : Store) :
  keeps_entries st (exec (route settings req) st).
Proof.
  rewrite exec_route. destruct req as [|body|P flag|q|P p];
    try (split; intros Q HQ; exact HQ).
  - rewrite exec_upsert_price. split; intros Q HQ; cbn [PRICES PROMOTIONS].
    + rewrite lookup_insert. case_decide; [eauto | exact HQ].
    + exact HQ.
  - rewrite exec_set_promotion. destruct (percent_in_range p).
    + split; intros Q HQ; cbn [PRICES PROMOTIONS].
      * exact HQ.
      * rewrite lookup_insert. case_decide; [eauto | exact HQ].
    + split; intros Q HQ; exact HQ.
Qed.

Lemma route_preserves_range (settings : Settings) (req : Request) (st : Store) :
  promotions_in_range st ->
  promotions_in_range (exec (route settings req) st).
Proof.
  intros Hinv. rewrite exec_route.
  destruct req as [|body|P flag|q|P p].
  - exact Hinv.
  - rewrite exec_upsert_price. exact Hinv.
  - exact Hinv.
  - exact Hinv.
  - rewrite exec_set_promotion. destruct (percent_in_range p) eqn:Hp.
    + intros Q x. cbn [PROMOTIONS]. rewrite lookup_insert.
      case_decide.
      * intros [= <-]. unfold percent_in_range in Hp.
        apply andb_true_iff in Hp. exact Hp.
      * apply Hinv.
    + exact Hinv.
Qed.

(** C9.  In every state reachable from the empty store by the five
    operations, every stored percentage lies in [0,100], and no operation
    served in such a state removes a price or a promotion entry. *)
Theorem reachable_invariant (settings : Settings) (st : Store) :
  reachable settings st ->
  promotions_in_range st /\
  forall req : Request, keeps_entries st (exec (route settings req) st).
Proof.
  intros Hreach. split.
  - induction Hreach as [|st req Hreach IH].
    + intros P p. cbn [empty_store PROMOTIONS]. rewrite lookup_empty.
      discriminate.
    + apply route_preserves_range, IH.
  - intros req. apply route_keeps_entries.
Qed.

Lemma reachable_invariant_witness :
  let settings := {| SERVICE_NAME := "Price List Management Service";
                     ENV := "development" |} in
  let st := exec (route settings (POST_promotions "sku-1" 25)) empty_store in
  PROMOTIONS st !! "sku-1" = Some 25%float /\
  promotions_in_range st /\
  forall req : Request, keeps_entries st (exec (route settings req) st).
Proof.
  intros settings st. split.
  - vm_compute. reflexivity.
  - apply (reachable_invariant settings st).
    apply reachable_step, reachable_empty.
Defined.

(** C10.  [upsert_price] changes only the prices entry of its product id,
    [upsert_promotion] (called directly or through its validated route)
    changes only the promotions entry of its product id, and [get_price],
    [query_price] and [health] leave the store as it was. *)
Theorem handlers_frame (settings : Settings) (st : Store) :
  (forall payload : PriceCreate,
      PROMOTIONS (exec (upsert_price payload) st) = PROMOTIONS st /\
      forall Q, Q <> pc_product_id payload ->
        PRICES (exec (upsert_price payload) st) !! Q = PRICES st !! Q) /\
  (forall payload : PromotionUpsert,
      PRICES (exec (upsert_promotion payload) st) = PRICES st /\
      forall Q, Q <> pu_product_id payload ->
        PROMOTIONS (exec (upsert_promotion payload) st) !! Q =
        PROMOTIONS st !! Q) /\
  (forall (P : string) (p : float),
      PRICES (exec (set_promotion P p) st) = PRICES st /\
      forall Q, Q <> P ->
        PROMOTIONS (exec (set_promotion P p) st) !! Q = PROMOTIONS st !! Q) /\
  (forall (P : string) (flag : bool), exec (get_price P flag) st = st) /\
  (forall q : PriceQuery, exec (query_price q) st = st) /\
  exec (health settings) st = st.
Proof.
  repeat apply conj.
  - intros payload. rewrite exec_upsert_price. split; [reflexivity|].
    intros Q HQ. cbn [PRICES]. apply lookup_insert_ne. congruence.
  - intros payload. rewrite exec_upsert_promotion. split; [reflexivity|].
    intros Q HQ. cbn [PROMOTIONS]. apply lookup_insert_ne. congruence.
  - intros P p. rewrite exec_set_promotion.
    destruct (percent_in_range p); split; try reflexivity.
    intros Q HQ. cbn [PROMOTIONS]. apply lookup_insert_ne. congruence.
  - intros P flag. apply exec_get_price.
  - intros q. apply exec_query_price.
  - apply exec_health.
Qed.

Lemma handlers_frame_witness :
  PRICES (exec (set_price "sku-2" "EUR" 4) (shop {[ "sku-1" := 25%float ]}))
    !! "sku-1" = Some {| rec_currency := "USD"; rec_base_price := 10 |} /\
  PROMOTIONS (exec (set_promotion "sku-2" 50) (shop {[ "sku-1" := 25%float ]}))
    !! "sku-1" = Some 25%float.
Proof.
  pose proof (handlers_frame
                {| SERVICE_NAME := "Price List Management Service";
                   ENV := "development" |}
                (shop {[ "sku-1" := 25%float ]})) as (Hprice & _ & Hpromo & _).
  split.
  - unfold set_price.
    rewrite (proj2 (Hprice {| pc_product_id := "sku-2"; pc_currency := "EUR";
                              pc_base_price := 4 |}) "sku-1").
    + vm_compute. reflexivity.
    + discriminate.
  - rewrite (proj2 (Hpromo "sku-2" 50%float) "sku-1").
    + vm_compute. reflexivity.
    + discriminate.
Defined.

(** * Further properties of the handlers *)

(** ** Writes *)

(** X1.  A second [upsert_price] for the same product id replaces the first
    record whole: the store is the one the second write alone would leave,
    and [get_price] answers with the second currency and base price. *)
Theorem upsert_price_overwrites
    (st : Store) (first second : PriceCreate) (flag : bool) :
  pc_product_id first = pc_product_id second ->
  exec (upsert_price second) (exec (upsert_price first) st) =
    exec (upsert_price second) st /\
  exists v,
    eval (get_price (pc_product_id second) flag)
         (exec (upsert_price second) (exec (upsert_price first) st)) = Ok v /\
    currency v = pc_currency second /\
    base_price v = pc_base_price second.
Proof.
  intros Hid.
  assert (Hstore : exec (upsert_price second) (exec (upsert_price first) st) =
                   exec (upsert_price second) st).
  { rewrite !exec_upsert_price. cbn [PRICES PROMOTIONS]. rewrite Hid.
    rewrite insert_insert_eq. reflexivity. }
  split; [exact Hstore|]. rewrite Hstore, exec_upsert_price. unfold eval.
  erewrite get_price_found by (cbn [PRICES]; apply lookup_insert_eq).
  eexists. split; [reflexivity|]. split; reflexivity.
Qed.

Lemma upsert_price_overwrites_witness :
  let first := {| pc_product_id := "sku-1"; pc_currency := "USD";
                  pc_base_price := 10 |} in
  let second := {| pc_product_id := "sku-1"; pc_currency := "EUR";
                   pc_base_price := 3 |} in
  exec (upsert_price second) (exec (upsert_price first) empty_store) =
    exec (upsert_price second) empty_store /\
  exists v,
    eval (get_price "sku-1" true)
         (exec (upsert_price second) (exec (upsert_price first) empty_store))
      = Ok v /\
    currency v = "EUR" /\
    base_price v = 3%float.
Proof.
  intros first second.
  apply (upsert_price_overwrites empty_store first second true).
  reflexivity.
Defined.

(** X2.  The view [upsert_price] returns is the view [get_price], with
    promotions applied, returns for that product right after the write. *)
Theorem upsert_price_response_is_get_price (st : Store) (payload : PriceCreate) :
  eval (upsert_price payload) st =
  eval (get_price (pc_product_id payload) true) (exec (upsert_price payload) st).
Proof.
  rewrite exec_upsert_price. unfold eval. rewrite upsert_price_run.
  erewrite get_price_found by (cbn [PRICES]; apply lookup_insert_eq).
  unfold looked_up. cbn [fst PROMOTIONS rec_currency rec_base_price].
  destruct (PROMOTIONS st !! pc_product_id payload) as [p|]; [|reflexivity].
  destruct (PyFloat.bool_of_float p); reflexivity.
Qed.

(** X3.  [query_price] is [get_price] on the payload's product id and
    promotions flag: the two return the same outcome and the same store in
    every state, whatever the queried currency. *)
Theorem query_price_is_get_price (st : Store) (q : PriceQuery) :
  query_price q st = get_price (pq_product_id q) (pq_include_promotions q) st.
Proof.
  destruct (PRICES st !! pq_product_id q) as [r|] eqn:Hr.
  - rewrite (query_price_found q st r Hr).
    rewrite (get_price_found _ _ st r Hr). reflexivity.
  - rewrite (query_price_missing q st Hr).
    rewrite (get_price_missing _ _ st Hr). reflexivity.
Qed.

(** X4.  Writing a price and writing a promotion commute: the store after
    [set_price] then [set_promotion] is the store after [set_promotion] then
    [set_price], for any two product ids and any percentage, accepted or
    refused. *)
Theorem set_price_set_promotion_commute
    (st : Store) (P C Q : string) (B p : float) :
  exec (set_promotion Q p) (exec (set_price P C B) st) =
  exec (set_price P C B) (exec (set_promotion Q p) st).
Proof.
  unfold set_price. rewrite !exec_set_promotion, !exec_upsert_price.
  destruct (percent_in_range p); reflexivity.
Qed.

(** X5.  A second [set_promotion] for the same product id replaces the first
    when it passes validation, and leaves the first in force when it is
    refused. *)
Theorem set_promotion_overwrites (st : Store) (P : string) (p1 p2 : float) :
  exec (set_promotion P p2) (exec (set_promotion P p1) st) =
    if percent_in_range p2
    then exec (set_promotion P p2) st
    else exec (set_promotion P p1) st.
Proof.
  rewrite !exec_set_promotion.
  destruct (percent_in_range p2), (percent_in_range p1); try reflexivity.
  cbn [PRICES PROMOTIONS]. rewrite insert_insert_eq. reflexivity.
Qed.

(** X6.  A percentage within [0,100], bounds included, is accepted, stored as
    given and echoed; [get_price] then reports it as [promotion_applied] and
    prices the product with it, leaving the base price and currency alone. *)
Theorem set_promotion_then_get_price
    (st : Store) (P : string) (p : float) (r : PriceRecord) :
  PRICES st !! P = Some r ->
  (0 <=? p)%float = true ->
  (p <=? 100)%float = true ->
  eval (set_promotion P p) st =
    Ok {| ack_status := "ok"; ack_product_id := P; ack_percent_off := p |} /\
  PROMOTIONS (exec (set_promotion P p) st) !! P = Some p /\
  eval (get_price P true) (exec (set_promotion P p) st) =
    Ok {| product_id := P;
          currency := rec_currency r;
          final_price :=
            if (p =? 0)%float then rec_base_price r
            else PyFloat.round (rec_base_price r * (1 - p / 100))%float 2;
          base_price := rec_base_price r;
          promotion_applied := Some p |}.
Proof.
  intros Hr Hge Hle.
  assert (Hp : percent_in_range p = true).
  { unfold percent_in_range. rewrite Hge, Hle. reflexivity. }
  unfold eval, exec. rewrite (set_promotion_valid P p st Hp).
  cbn [fst snd PROMOTIONS]. split; [reflexivity|].
  split; [apply lookup_insert_eq|].
  erewrite get_price_found by (cbn [PRICES]; exact Hr).
  unfold looked_up. cbn [fst PROMOTIONS]. rewrite lookup_insert_eq.
  unfold PyFloat.bool_of_float, discounted.
  destruct (p =? 0)%float; reflexivity.
Qed.

Lemma set_promotion_then_get_price_witness :
  eval (get_price "sku-1" true) (exec (set_promotion "sku-1" 100) (shop ∅)) =
    Ok {| product_id := "sku-1"; currency := "USD"; final_price := 0;
          base_price := 10; promotion_applied := Some 100%float |}.
Proof.
  apply (set_promotion_then_get_price (shop ∅) "sku-1" 100
           {| rec_currency := "USD"; rec_base_price := 10 |});
    vm_compute; reflexivity.
Defined.

(** X7.  A promotion recorded for a product without a price creates no
    price: [get_price] still answers 404.  It takes effect with the first
    [set_price] for that product, whose response is already discounted. *)
Theorem promotion_before_price
    (st : Store) (P C : string) (B p : float) (flag : bool) :
  PRICES st !! P = None ->
  percent_in_range p = true ->
  (p =? 0)%float = false ->
  eval (get_price P flag) (exec (set_promotion P p) st) =
    Raise (HTTPException 404 "Price not found") /\
  eval (set_price P C B) (exec (set_promotion P p) st) =
    Ok {| product_id := P;
          currency := C;
          final_price := PyFloat.round (B * (1 - p / 100))%float 2;
          base_price := B;
          promotion_applied := Some p |}.
Proof.
  intros Hnone Hp Hnz. rewrite exec_set_promotion, Hp. unfold eval. split.
  - rewrite get_price_missing by (cbn [PRICES]; exact Hnone). reflexivity.
  - unfold set_price. rewrite upsert_price_run.
    cbn [fst PROMOTIONS pc_product_id pc_currency pc_base_price].
    rewrite lookup_insert_eq, (bool_of_float_nonzero _ Hnz). reflexivity.
Qed.

Lemma promotion_before_price_witness :
  eval (get_price "new" true) (exec (set_promotion "new" 50) empty_store) =
    Raise (HTTPException 404 "Price not found") /\
  eval (set_price "new" "USD" 9.99) (exec (set_promotion "new" 50) empty_store) =
    Ok {| product_id := "new"; currency := "USD"; final_price := 5;
          base_price := 9.99; promotion_applied := Some 50%float |}.
Proof.
  apply (promotion_before_price empty_store "new" "USD" 9.99 50 true);
    vm_compute; reflexivity.
Defined.

(** ** Failures *)




(** ** A 100% promotion *)

Lemma finite_times_zero (b : float) :
  is_finite b = true ->
  exists s, Prim2SF (b * 0)%float = S754_zero s.
Proof.
  intros Hfin. rewrite mul_spec.
  replace (Prim2SF 0) with (S754_zero false) by (vm_compute; reflexivity).
  unfold is_finite in Hfin. apply negb_true_iff, orb_false_iff in Hfin.
  destruct Hfin as [Hnan Hinf]. unfold Prim2SF. rewrite Hnan, Hinf.
  destruct (is_zero b); [eexists; reflexivity|].
  destruct (Z.frexp b) as [m e].
  destruct (shr_fexp prec emax (Uint63Axioms.to_Z (normfr_mantissa m))
              (e - prec) loc_Exact) as [shr e'].
  destruct (shr_m shr); eexists; reflexivity.
Qed.

Lemma round_of_zero (x : float) (s : bool) (ndigits : Z) :
  Prim2SF x = S754_zero s -> PyFloat.round x ndigits = x.
Proof. unfold PyFloat.round. intros ->. reflexivity. Qed.

(** X9.  With a stored promotion of 100, [get_price] prices every product
    whose base price is finite at zero. *)
Theorem full_discount_is_free (st : Store) (P : string) (r : PriceRecord) :
  PRICES st !! P = Some r ->
  PROMOTIONS st !! P = Some 100%float ->
  is_finite (rec_base_price r) = true ->
  exists v, eval (get_price P true) st = Ok v /\
            (final_price v =? 0)%float = true /\
            promotion_applied v = Some 100%float.
Proof.
  intros Hr Hp Hfin. unfold eval. rewrite (get_price_found P true st r Hr).
  eexists. split; [reflexivity|]. unfold looked_up.
  cbn [fst final_price promotion_applied]. rewrite Hp.
  split; [|reflexivity].
  replace (PyFloat.bool_of_float 100) with true by (vm_compute; reflexivity).
  cbn [negb]. unfold discounted.
  replace (1 - 100 / 100)%float with 0%float by (vm_compute; reflexivity).
  destruct (finite_times_zero _ Hfin) as [s Hs].
  rewrite (round_of_zero _ s 2 Hs), FloatAxioms.eqb_spec, Hs.
  vm_compute. reflexivity.
Qed.

Lemma full_discount_is_free_witness :
  exists v, eval (get_price "sku-1" true) (shop {[ "sku-1" := 100%float ]}) = Ok v /\
            (final_price v =? 0)%float = true /\
            promotion_applied v = Some 100%float.
Proof.
  apply (full_discount_is_free (shop {[ "sku-1" := 100%float ]}) "sku-1"
           {| rec_currency := "USD"; rec_base_price := 10 |});
    vm_compute; reflexivity.
Defined.

(** ** Histories *)

Lemma route_prices_lookup
    (settings : Settings) (req : Request) (st : Store) (P : string) :
  PRICES (exec (route settings req) st) !! P =
    match price_written P req with
    | Some a => Some a
    | None => PRICES st !! P
    end.
Proof.
  rewrite exec_route. destruct req as [|body|Q flag|q|Q p]; cbn [price_written];
    try reflexivity.
  - rewrite exec_upsert_price. cbn [PRICES].
    destruct (String.eqb_spec (pc_product_id body) P) as [->|Hne].
    + apply lookup_insert_eq.
    + apply lookup_insert_ne. exact Hne.
  - rewrite exec_set_promotion. destruct (percent_in_range p); reflexivity.
Qed.

Lemma route_promotions_lookup
    (settings : Settings) (req : Request) (st : Store) (P : string) :
  PROMOTIONS (exec (route settings req) st) !! P =
    match promotion_written P req with
    | Some a => Some a
    | None => PROMOTIONS st !! P
    end.
Proof.
  rewrite exec_route.
  destruct req as [|body|Q flag|q|Q p]; cbn [promotion_written];
    try reflexivity.
  rewrite exec_set_promotion. destruct (percent_in_range p).
  - cbn [PROMOTIONS]. rewrite andb_true_r.
    destruct (String.eqb_spec Q P) as [->|Hne].
    + apply lookup_insert_eq.
    + apply lookup_insert_ne. exact Hne.
  - rewrite andb_false_r. reflexivity.
Qed.

(** X10.  Last write wins along any history: after serving a list of
    requests, the price record of a product id is the one of the last
    [POST /api/v1/prices] for it, and its percentage is the one of the last
    [POST /api/v1/promotions] for it that passed validation; with no such
    request the entry is as it was before the list. *)
Theorem run_last_write
    (settings : Settings) (reqs : list Request) (st : Store) (P : string) :
  PRICES (run settings reqs st) !! P =
    last_written (price_written P) reqs (PRICES st !! P) /\
  PROMOTIONS (run settings reqs st) !! P =
    last_written (promotion_written P) reqs (PROMOTIONS st !! P).
Proof.
  unfold run, last_written. revert st.
  induction reqs as [|req reqs IH]; intros st; cbn [fold_left].
  - split; reflexivity.
  - destruct (IH (exec (route settings req) st)) as [IHprice IHpromo].
    rewrite IHprice, IHpromo, route_prices_lookup, route_promotions_lookup.
    split; reflexivity.
Qed.

Lemma run_keeps_entries
    (settings : Settings) (reqs : list Request) (st : Store) :
  keeps_entries st (run settings reqs st).
Proof.
  unfold run. revert st.
  induction reqs as [|req reqs IH]; intros st; cbn [fold_left].
  - split; intros Q HQ; exact HQ.
  - destruct (route_keeps_entries settings req st) as [H1 H2].
    destruct (IH (exec (route settings req) st)) as [H3 H4].
    split; intros Q HQ; [apply H3, H1, HQ | apply H4, H2, HQ].
Qed.

(** X11.  Once a price is set for a product id, [get_price] for it succeeds
    after any further list of requests: no request makes a priced product
    unknown again. *)
Theorem priced_product_stays_readable
    (settings : Settings) (st : Store) (P C : string) (B : float)
    (reqs : list Request) (flag : bool) :
  exists v,
    eval (get_price P flag) (run settings reqs (exec (set_price P C B) st)) =
      Ok v /\
    product_id v = P.
Proof.
  destruct (run_keeps_entries settings reqs (exec (set_price P C B) st))
    as [Hkeep _].
  destruct (Hkeep P) as [r Hr].
  { unfold set_price. rewrite exec_upsert_price. cbn [PRICES pc_product_id].
    rewrite lookup_insert_eq. eauto. }
  unfold eval. rewrite (get_price_found P flag _ r Hr).
  eexists. split; reflexivity.
Qed.

(** The reachable stores are the stores [run] reaches from the empty one. *)
Lemma reachable_iff_run (settings : Settings) (st : Store) :
  reachable settings st <-> exists reqs, st = run settings reqs empty_store.
Proof.
  split.
  - induction 1 as [|st req Hreach [reqs ->]].
    + exists []. reflexivity.
    + exists (reqs ++ [req]). unfold run. rewrite fold_left_app. reflexivity.
  - intros [reqs ->]. unfold run.
    induction reqs as [|req reqs IH] using rev_ind.
    + apply reachable_empty.
    + rewrite fold_left_app. cbn [fold_left]. apply reachable_step, IH.
Qed.

(** ** Products do not interfere *)

(** X12.  What [get_price] answers for a product id does not change when a
    price or a promotion is written for another product id. *)
Theorem get_price_other_product
    (st : Store) (P Q C : string) (B p : float) (flag : bool) :
  P <> Q ->
  eval (get_price P flag) (exec (set_price Q C B) st) =
    eval (get_price P flag) st /\
  eval (get_price P flag) (exec (set_promotion Q p) st) =
    eval (get_price P flag) st.
Proof.
  intros Hne.
  assert (Hread : forall st1 st2,
            PRICES st1 !! P = PRICES st2 !! P ->
            PROMOTIONS st1 !! P = PROMOTIONS st2 !! P ->
            eval (get_price P flag) st1 = eval (get_price P flag) st2).
  { intros st1 st2 Hprice Hpromo. unfold eval.
    destruct (PRICES st2 !! P) as [r|] eqn:Hr.
    - rewrite (get_price_found P flag st1 r Hprice).
      rewrite (get_price_found P flag st2 r Hr).
      unfold looked_up. rewrite Hpromo. reflexivity.
    - rewrite (get_price_missing P flag st1 Hprice).
      rewrite (get_price_missing P flag st2 Hr). reflexivity. }
  split; apply Hread.
  - unfold set_price. rewrite exec_upsert_price. cbn [PRICES pc_product_id].
    apply lookup_insert_ne. congruence.
  - unfold set_price. rewrite exec_upsert_price. reflexivity.
  - rewrite exec_set_promotion. destruct (percent_in_range p); reflexivity.
  - rewrite exec_set_promotion. destruct (percent_in_range p); [|reflexivity].
    cbn [PROMOTIONS]. apply lookup_insert_ne. congruence.
Qed.

Lemma get_price_other_product_witness :
  eval (get_price "sku-1" true) (exec (set_price "sku-2" "EUR" 4) (shop ∅)) =
    eval (get_price "sku-1" true) (shop ∅) /\
  eval (get_price "sku-1" true) (exec (set_promotion "sku-2" 50) (shop ∅)) =
    eval (get_price "sku-1" true) (shop ∅).
Proof.
  apply (get_price_other_product (shop ∅) "sku-1" "sku-2" "EUR" 4 50 true).
  discriminate.
Defined.

(** * Start-up configuration *)

(** ** Stripping *)

Section DropSpaces.

Variable t1 : ascii -> bool.
Variable t2 : ascii -> ascii -> bool.
Variable t3 : ascii -> ascii -> ascii -> bool.

Let drop := PyStr.drop_spaces t1 t2 t3.
Let starts := PyStr.head_space t1 t2 t3.

Lemma drop_spaces_suffix_bounded (n : nat) (s : list ascii) :
  (length s <= n)%nat -> exists p, s = p ++ drop s.
Proof.
  revert s. induction n as [|n IH]; intros s Hlen.
  - destruct s; [exists []; reflexivity | cbn in Hlen; lia].
  - destruct s as [|a [|b [|c s3]]]; cbn in *.
    + exists []. reflexivity.
    + destruct (t1 a); [exists [a] | exists []]; reflexivity.
    + destruct (t1 a).
      * destruct (IH [b]) as [p Hp]; [cbn; lia|].
        exists (a :: p). cbn. f_equal. exact Hp.
      * destruct (t2 a b); [exists [a; b] | exists []]; reflexivity.
    + destruct (t1 a).
      * destruct (IH (b :: c :: s3)) as [p Hp]; [cbn; lia|].
        exists (a :: p). cbn. f_equal. exact Hp.
      * destruct (t2 a b).
        -- destruct (IH (c :: s3)) as [p Hp]; [cbn; lia|].
           exists (a :: b :: p). cbn. do 2 f_equal. exact Hp.
        -- destruct (t3 a b c).
           ++ destruct (IH s3) as [p Hp]; [lia|].
              exists (a :: b :: c :: p). cbn. do 3 f_equal. exact Hp.
           ++ exists []. reflexivity.
Qed.

Lemma drop_spaces_suffix (s : list ascii) : exists p, s = p ++ drop s.
Proof. apply (drop_spaces_suffix_bounded (length s)). lia. Qed.

Lemma drop_spaces_head_bounded (n : nat) (s : list ascii) :
  (length s <= n)%nat -> starts (drop s) = false.
Proof.
  revert s. induction n as [|n IH]; intros s Hlen.
  - destruct s; [reflexivity | cbn in Hlen; lia].
  - destruct s as [|a [|b [|c s3]]]; cbn in *.
    + reflexivity.
    + destruct (t1 a) eqn:H1; [reflexivity|]. cbn. rewrite H1. reflexivity.
    + destruct (t1 a) eqn:H1.
      * apply (IH [b]). cbn. lia.
      * destruct (t2 a b) eqn:H2; [reflexivity|].
        cbn. rewrite H1, H2. reflexivity.
    + destruct (t1 a) eqn:H1.
      * apply (IH (b :: c :: s3)). cbn. lia.
      * destruct (t2 a b) eqn:H2.
        -- apply (IH (c :: s3)). cbn. lia.
        -- destruct (t3 a b c) eqn:H3.
           ++ apply IH. lia.
           ++ cbn. rewrite H1, H2, H3. reflexivity.
Qed.

Lemma drop_spaces_head (s : list ascii) : starts (drop s) = false.
Proof. apply (drop_spaces_head_bounded (length s)). lia. Qed.

Lemma drop_spaces_fixed (s : list ascii) : starts s = false -> drop s = s.
Proof.
  destruct s as [|a [|b [|c s3]]]; cbn; try reflexivity.
  - rewrite orb_false_r. intros ->. reflexivity.
  - rewrite orb_false_r. intros H. apply orb_false_iff in H as [-> ->].
    reflexivity.
  - intros H. apply orb_false_iff in H as [-> H].
    apply orb_false_iff in H as [-> ->]. reflexivity.
Qed.

Lemma head_space_app (s u : list ascii) :
  starts s = true -> starts (s ++ u) = true.
Proof.
  destruct s as [|a [|b [|c s3]]]; cbn; try discriminate.
  - rewrite orb_false_r. intros ->. reflexivity.
  - rewrite orb_false_r. intros H. apply orb_true_iff in H as [->| ->].
    + reflexivity.
    + apply orb_true_r.
  - intros H. exact H.
Qed.

Lemma head_space_prefix (s u : list ascii) :
  starts (s ++ u) = false -> starts s = false.
Proof.
  intros H. destruct (starts s) eqn:Hs; [|reflexivity].
  rewrite (head_space_app s u Hs) in H. discriminate H.
Qed.

End DropSpaces.

Lemma rstrip_chars_prefix (s : list ascii) :
  exists q, s = PyStr.rstrip_chars s ++ q.
Proof.
  unfold PyStr.rstrip_chars.
  destruct (drop_spaces_suffix PyStr.space1 (fun b a => PyStr.space2 a b)
              (fun c b a => PyStr.space3 a b c) (rev s)) as [p Hp].
  exists (rev p). rewrite <- rev_app_distr, <- Hp, rev_involutive.
  reflexivity.
Qed.

Lemma rstrip_chars_idem (s : list ascii) :
  PyStr.rstrip_chars (PyStr.rstrip_chars s) = PyStr.rstrip_chars s.
Proof.
  unfold PyStr.rstrip_chars. rewrite rev_involutive. f_equal.
  apply drop_spaces_fixed, drop_spaces_head.
Qed.

Lemma strip_chars_idem (s : list ascii) :
  PyStr.strip_chars (PyStr.strip_chars s) = PyStr.strip_chars s.
Proof.
  unfold PyStr.strip_chars.
  assert (Hl : PyStr.lstrip_chars (PyStr.rstrip_chars (PyStr.lstrip_chars s)) =
               PyStr.rstrip_chars (PyStr.lstrip_chars s)).
  { unfold PyStr.lstrip_chars at 1. apply drop_spaces_fixed.
    destruct (rstrip_chars_prefix (PyStr.lstrip_chars s)) as [q Hq].
    apply (head_space_prefix _ _ _ _ q). rewrite <- Hq.
    apply drop_spaces_head. }
  rewrite Hl. apply rstrip_chars_idem.
Qed.

Lemma strip_chars_infix (s : list ascii) :
  exists p q, s = p ++ PyStr.strip_chars s ++ q.
Proof.
  unfold PyStr.strip_chars.
  destruct (drop_spaces_suffix PyStr.space1 PyStr.space2 PyStr.space3 s)
    as [p Hp].
  destruct (rstrip_chars_prefix (PyStr.lstrip_chars s)) as [q Hq].
  exists p, q. unfold PyStr.lstrip_chars in *. rewrite <- Hq. exact Hp.
Qed.

(** ** Splitting *)

Lemma split_chars_cons (sep : ascii) (s : list ascii) :
  exists piece rest, PyStr.split_chars sep s = piece :: rest.
Proof.
  destruct s as [|c s]; cbn.
  - eauto.
  - destruct (Ascii.eqb c sep); [eauto|].
    destruct (PyStr.split_chars sep s); eauto.
Qed.

Lemma split_chars_length (sep : ascii) (s : list ascii) :
  length (PyStr.split_chars sep s) = S (length (filter (Ascii.eqb sep) s)).
Proof.
  induction s as [|c s IH]; cbn; [reflexivity|].
  rewrite (Ascii.eqb_sym sep c).
  destruct (Ascii.eqb c sep); cbn; [rewrite IH; reflexivity|].
  destruct (split_chars_cons sep s) as (piece & rest & Hs).
  rewrite Hs in *. cbn in *. exact IH.
Qed.

Lemma split_chars_no_sep (sep : ascii) (s piece : list ascii) :
  In piece (PyStr.split_chars sep s) -> ~ In sep piece.
Proof.
  revert piece. induction s as [|c s IH]; cbn; intros piece Hin.
  - destruct Hin as [<-|[]]. intros [].
  - destruct (Ascii.eqb_spec c sep) as [->|Hne].
    + destruct Hin as [<-|Hin]; [intros [] | apply IH, Hin].
    + destruct (split_chars_cons sep s) as (hd & rest & Hs).
      rewrite Hs in *. destruct Hin as [<-|Hin].
      * intros [Heq|Hin']; [congruence|].
        apply (IH hd); [left; reflexivity | exact Hin'].
      * apply IH. right. exact Hin.
Qed.

Lemma split_chars_whole (sep : ascii) (s : list ascii) :
  ~ In sep s -> PyStr.split_chars sep s = [s].
Proof.
  induction s as [|c s IH]; cbn; intros Hnot; [reflexivity|].
  destruct (Ascii.eqb_spec c sep) as [->|Hne]; [tauto|].
  rewrite IH by tauto. reflexivity.
Qed.

Lemma split_chars_app (sep : ascii) (s rest : list ascii) :
  ~ In sep s ->
  PyStr.split_chars sep (s ++ sep :: rest) = s :: PyStr.split_chars sep rest.
Proof.
  induction s as [|c s IH]; cbn; intros Hnot.
  - rewrite Ascii.eqb_refl. reflexivity.
  - destruct (Ascii.eqb_spec c sep) as [->|Hne]; [tauto|].
    rewrite IH by tauto. reflexivity.
Qed.

Lemma split_join_chars (sep : ascii) (pieces : list (list ascii)) :
  pieces <> [] ->
  (forall piece, In piece pieces -> ~ In sep piece) ->
  PyStr.split_chars sep (PyStr.join_chars sep pieces) = pieces.
Proof.
  induction pieces as [|piece [|next rest] IH]; intros Hne Hclean.
  - congruence.
  - cbn. apply split_chars_whole, Hclean. left. reflexivity.
  - change (PyStr.join_chars sep (piece :: next :: rest))
      with (piece ++ sep :: PyStr.join_chars sep (next :: rest)).
    rewrite split_chars_app by (apply Hclean; left; reflexivity).
    rewrite IH; [reflexivity | discriminate |].
    intros p Hp. apply Hclean. right. exact Hp.
Qed.

Lemma space2_blank (a : ascii) : PyStr.space2 a " " = false.
Proof. unfold PyStr.space2. apply andb_false_r. Qed.

Lemma space3_blank (a b : ascii) : PyStr.space3 a b " " = false.
Proof.
  unfold PyStr.space3.
  change (N_of_ascii " ") with 32%N. cbn [N.eqb N.leb N.compare Pos.eqb Pos.compare
                                           Pos.compare_cont].
  rewrite !andb_false_r. reflexivity.
Qed.

Lemma drop_blanks (t2 : ascii -> ascii -> bool)
    (t3 : ascii -> ascii -> ascii -> bool) (n : nat) (s : list ascii) :
  PyStr.drop_spaces PyStr.space1 t2 t3 (repeat " "%char n ++ s) =
  PyStr.drop_spaces PyStr.space1 t2 t3 s.
Proof. induction n as [|n IH]; [reflexivity | exact IH]. Qed.

Lemma head_space_blanks (o : list ascii) (m : nat) :
  o <> [] ->
  PyStr.head_space PyStr.space1 PyStr.space2 PyStr.space3 o = false ->
  PyStr.head_space PyStr.space1 PyStr.space2 PyStr.space3
    (o ++ repeat " "%char m) = false.
Proof.
  intros Hne. destruct o as [|a [|b [|c o3]]]; [congruence| | |];
    cbn [PyStr.head_space app]; intros H.
  - rewrite orb_false_r in H. rewrite H.
    destruct m as [|[|m]]; cbn [repeat]; [reflexivity| |];
      rewrite ?space2_blank, ?space3_blank; reflexivity.
  - rewrite orb_false_r in H. apply orb_false_iff in H as [H1 H2].
    rewrite H1, H2. destruct m as [|m]; cbn [repeat]; [reflexivity|].
    rewrite space3_blank. reflexivity.
  - exact H.
Qed.

Lemma clean_chars (o : list ascii) :
  PyStr.strip_chars o = o ->
  PyStr.lstrip_chars o = o /\ PyStr.rstrip_chars o = o.
Proof.
  intros Hclean. unfold PyStr.strip_chars in Hclean.
  destruct (drop_spaces_suffix PyStr.space1 PyStr.space2 PyStr.space3 o)
    as [p Hp].
  fold (PyStr.lstrip_chars o) in Hp.
  destruct (rstrip_chars_prefix (PyStr.lstrip_chars o)) as [q Hq].
  rewrite Hclean in Hq.
  assert (Hlen : length o = (length p + (length o + length q))%nat).
  { rewrite Hp at 1. rewrite Hq at 1. rewrite !length_app. reflexivity. }
  assert (Hq0 : q = []) by (destruct q; [reflexivity | cbn in Hlen; lia]).
  subst q. rewrite app_nil_r in Hq.
  split; [exact Hq|]. rewrite Hq in Hclean. exact Hclean.
Qed.

Lemma strip_chars_padded (n m : nat) (o : list ascii) :
  PyStr.strip_chars o = o ->
  PyStr.strip_chars (repeat " "%char n ++ o ++ repeat " "%char m) = o.
Proof.
  intros Hclean. destruct (clean_chars o Hclean) as [Hl Hr].
  unfold PyStr.strip_chars, PyStr.lstrip_chars. rewrite drop_blanks.
  destruct o as [|a o].
  - cbn [app]. rewrite <- (app_nil_r (repeat " "%char m)), drop_blanks.
    reflexivity.
  - rewrite drop_spaces_fixed.
    + unfold PyStr.rstrip_chars. rewrite rev_app_distr, rev_repeat, drop_blanks.
      exact Hr.
    + apply head_space_blanks; [discriminate|].
      rewrite <- Hl at 1. apply drop_spaces_head.
Qed.

(** ** The allowed origins *)

Lemma strip_idem (s : string) : PyStr.strip (PyStr.strip s) = PyStr.strip s.
Proof.
  unfold PyStr.strip. rewrite list_ascii_of_string_of_list_ascii.
  rewrite strip_chars_idem. reflexivity.
Qed.

Lemma strip_clean_chars (o : string) :
  PyStr.strip o = o ->
  PyStr.strip_chars (list_ascii_of_string o) = list_ascii_of_string o.
Proof.
  unfold PyStr.strip. intros H.
  apply (f_equal list_ascii_of_string) in H.
  rewrite list_ascii_of_string_of_list_ascii in H. exact H.
Qed.

Lemma strip_padded (n m : nat) (o : string) :
  PyStr.strip o = o -> PyStr.strip (PyStr.padded n m o) = o.
Proof.
  intros Hclean. unfold PyStr.strip, PyStr.padded.
  rewrite list_ascii_of_string_of_list_ascii.
  rewrite (strip_chars_padded n m _ (strip_clean_chars o Hclean)).
  apply string_of_list_ascii_of_string.
Qed.

(** X13.  The list of allowed origins is never empty.  When
    [ALLOWED_ORIGINS] is unset or set to the empty string it is the wildcard
    alone; otherwise it has one entry more than the value has commas. *)
Theorem allow_origins_size (environ : gmap string string) :
  let origins :=
    allow_origins (Config.ALLOWED_ORIGINS (Config.get_settings environ)) in
  origins <> [] /\
  (environ !! "ALLOWED_ORIGINS" = None \/
   environ !! "ALLOWED_ORIGINS" = Some "" -> origins = ["*"]) /\
  (forall v, environ !! "ALLOWED_ORIGINS" = Some v -> v <> "" ->
             length origins = S (PyStr.count "," v)).
Proof.
  cbn zeta. unfold Config.get_settings, Config.getenv_or.
  cbn [Config.ALLOWED_ORIGINS].
  assert (Hlen : forall v, v <> "" ->
            length (allow_origins v) = S (PyStr.count "," v)).
  { intros v Hv. unfold allow_origins, PyStr.split, PyStr.count.
    destruct v as [|c v]; [congruence|]. cbn [PyStr.bool_of_str].
    rewrite !length_map. apply split_chars_length. }
  split; [|split].
  - destruct (environ !! "ALLOWED_ORIGINS") as [v|]; [|discriminate].
    destruct (string_dec v "") as [->|Hv]; [discriminate|].
    intros Hnil. specialize (Hlen v Hv). rewrite Hnil in Hlen.
    discriminate Hlen.
  - intros [-> | ->]; reflexivity.
  - intros v -> Hv. apply Hlen, Hv.
Qed.

Lemma allow_origins_size_witness :
  allow_origins
    (Config.ALLOWED_ORIGINS
       (Config.get_settings {[ "ALLOWED_ORIGINS" := "" ]})) = ["*"] /\
  length (allow_origins
            (Config.ALLOWED_ORIGINS
               (Config.get_settings
                  {[ "ALLOWED_ORIGINS" := "http://a.example, http://b.example," ]})))
    = 3%nat.
Proof.
  split.
  - apply (allow_origins_size {[ "ALLOWED_ORIGINS" := "" ]}).
    right. vm_compute. reflexivity.
  - apply (proj2 (proj2 (allow_origins_size
             {[ "ALLOWED_ORIGINS" := "http://a.example, http://b.example," ]}))
             "http://a.example, http://b.example,").
    + vm_compute. reflexivity.
    + discriminate.
Defined.

(** X14.  Every allowed origin is stripped, so that stripping it again
    changes nothing, and contains no comma. *)
Theorem allow_origins_stripped (value origin : string) :
  In origin (allow_origins value) ->
  PyStr.strip origin = origin /\
  ~ In ","%char (list_ascii_of_string origin).
Proof.
  unfold allow_origins. destruct (PyStr.bool_of_str value).
  - intros Hin. apply in_map_iff in Hin as (piece & <- & Hin).
    split; [apply strip_idem|].
    unfold PyStr.split in Hin. apply in_map_iff in Hin as (chars & <- & Hin).
    unfold PyStr.strip. rewrite !list_ascii_of_string_of_list_ascii.
    destruct (strip_chars_infix chars) as (p & q & Hpq).
    intros Hcomma. apply (split_chars_no_sep _ _ _ Hin).
    rewrite Hpq. apply in_or_app. right. apply in_or_app. left. exact Hcomma.
  - intros [<-|[]]. split; [reflexivity|].
    cbn. intros [H|[]]. discriminate H.
Qed.

Lemma allow_origins_stripped_witness :
  PyStr.strip "http://b.example" = "http://b.example" /\
  ~ In ","%char (list_ascii_of_string "http://b.example").
Proof.
  apply (allow_origins_stripped " http://a.example ,  http://b.example ").
  vm_compute. right. left. reflexivity.
Defined.

(** X15.  Parsing undoes joining: origins that are stripped and free of
    commas, each written with its own number of blanks before and after it
    and joined by commas, are read back as the same list. *)
Theorem allow_origins_round_trip (items : list (nat * nat * string)) :
  let written :=
    PyStr.join "," (map (fun '(n, m, o) => PyStr.padded n m o) items) in
  items <> [] ->
  (forall n m o, In (n, m, o) items ->
                 PyStr.strip o = o /\
                 ~ In ","%char (list_ascii_of_string o)) ->
  written <> "" ->
  allow_origins written = map snd items.
Proof.
  intros written Hne Hclean Hvalue. unfold allow_origins.
  destruct written as [|c v] eqn:Hj; [congruence|].
  cbn [PyStr.bool_of_str]. rewrite <- Hj. clear Hj Hvalue c v.
  subst written. unfold PyStr.split, PyStr.join.
  rewrite list_ascii_of_string_of_list_ascii, split_join_chars.
  - rewrite !map_map. apply map_ext_in.
    intros [[n m] o] Ho. rewrite string_of_list_ascii_of_string.
    apply strip_padded, (Hclean n m o Ho).
  - destruct items; [congruence | discriminate].
  - intros piece Hin. apply in_map_iff in Hin as (s & <- & Hin).
    apply in_map_iff in Hin as ([[n m] o] & <- & Ho).
    unfold PyStr.padded. rewrite list_ascii_of_string_of_list_ascii.
    intros Hcomma. apply in_app_or in Hcomma as [Hc|Hc].
    + apply repeat_spec in Hc. discriminate Hc.
    + apply in_app_or in Hc as [Hc|Hc].
      * exact (proj2 (Hclean n m o Ho) Hc).
      * apply repeat_spec in Hc. discriminate Hc.
Qed.

Lemma allow_origins_round_trip_witness :
  allow_origins "http://a.example, http://b.example ,  *" =
    ["http://a.example"; "http://b.example"; "*"].
Proof.
  apply (allow_origins_round_trip
           [(0%nat, 0%nat, "http://a.example");
            (1%nat, 1%nat, "http://b.example");
            (2%nat, 0%nat, "*")]).
  - discriminate.
  - intros n m o [H|[H|[H|[]]]]; injection H as <- <- <-; split;
      solve [ vm_compute; reflexivity
            | vm_compute; intros H; decompose [or] H; discriminate || contradiction ].
  - vm_compute. discriminate.
Defined.

(** X16.  A value without a comma that is not empty but strips to the empty
    string, such as a single blank, gives one empty origin, not the
    wildcard. *)
Theorem allow_origins_blank (value : string) :
  value <> "" ->
  ~ In ","%char (list_ascii_of_string value) ->
  PyStr.strip value = "" ->
  allow_origins value = [""].
Proof.
  intros Hne Hcomma Hblank. unfold allow_origins.
  destruct value as [|c v]; [congruence|]. cbn [PyStr.bool_of_str].
  unfold PyStr.split. rewrite (split_chars_whole _ _ Hcomma).
  cbn [map]. rewrite string_of_list_ascii_of_string, Hblank. reflexivity.
Qed.

Lemma allow_origins_blank_witness : allow_origins " " = [""].
Proof.
  apply (allow_origins_blank " ").
  - discriminate.
  - vm_compute. intros [H|[]]. discriminate H.
  - vm_compute. reflexivity.
Defined.
